(** * bdilab_model_monitor_server/server.py: the CloudEvents relay in front of
      a monitoring model

    A shallow embedding of [server.py]: the server shell ([CEServer]), the
    protocol factory ([get_request_handler]), the outbound relay
    ([sendCloudEvent]) and the per-request pipeline ([EventHandler.post]).

    The libraries the file calls (json, cloudevents, requests, the clock and
    the uuid generator) and the repository modules that are imported but are
    not part of the verified file (the model, the request handler of the
    common protocol, the metrics registry) enter as interfaces: type classes
    whose methods are the calls the source makes.  The control flow between
    those calls is the source's, statement by statement. *)

From Stdlib Require Import QArith Qcanon Ascii.
From stdpp Require Import base numbers strings gmap list pretty.

Set Default Proof Using "Type".
Set Warnings "-register-all".
Local Open Scope Z_scope.

(** ** Python values *)

(** The values that travel through the pipeline: what [json.loads] produces and
    what [json.dumps] accepts.  A dict keeps its insertion order, as in Python.
    A float is carried as the rational it denotes; nothing below computes with
    one beyond the addition of a counter. *)
Inductive pyval : Type :=
| PNone
| PBool (b : bool)
| PInt (z : Z)
| PFloat (q : Qc)
| PStr (s : string)
| PList (items : list pyval)
| PDict (items : list (string * pyval)).

(** [v is None]. *)
Definition is_None (v : pyval) : bool :=
  match v with PNone => true | _ => false end.

(** [bytes]: the raw request body and the marshalled outbound body. *)
Definition bytes : Type := list Byte.byte.

(** ** Exceptions *)

(** What [json.loads] raises on a [bytes] argument: [JSONDecodeError] when the
    decoded text is not a JSON document, [UnicodeDecodeError] when the bytes
    cannot be decoded to text in the first place.  Both are subclasses of
    [ValueError]; neither is a subclass of the other. *)
Inductive json_error : Type :=
| JSONDecodeError (msg : string)
| UnicodeDecodeError (msg : string).

(** An exception of [requests.exceptions]: its class name and its message. *)
Record RequestException : Type := mkRequestException {
  rex_class : string;
  rex_msg : string
}.

(** The exceptions that can leave a handler. *)
Inductive exn : Type :=
| HTTPError (status_code : Z) (reason : string)
    (* tornado.web.HTTPError *)
| Exception (msg : string)
    (* the built-in Exception, as server.py raises it *)
| JsonError (e : json_error)
| RequestsError (e : RequestException)
| AttributeError (msg : string)
| Raised (cls : string) (msg : string)
    (* any other class, raised by a collaborator *).

(** [str(e)] of a [json_error], the [%s] of line 186. *)
Definition json_error_str (e : json_error) : string :=
  match e with
  | JSONDecodeError msg => msg
  | UnicodeDecodeError msg => msg
  end.

(** The status tornado answers with when a handler raises: the status of an
    [HTTPError], 500 for every other exception. *)
Definition status_of_exn (e : exn) : Z :=
  match e with
  | HTTPError status_code _ => status_code
  | _ => 500
  end.

Definition BAD_REQUEST : Z := 400.
Definition INTERNAL_SERVER_ERROR : Z := 500.

(** ** numpy *)

Module np.

(** An array: its shape and the nested data it was built from. *)
Record ndarray : Type := mk_ndarray {
  shape : list nat;
  tolist : pyval
}.

(** All entries of a list of optional shapes are the same shape. *)
Fixpoint common_shape (first : list nat) (rest : list (option (list nat)))
  : option (list nat) :=
  match rest with
  | [] => Some first
  | Some s :: rest' =>
      if decide (s = first) then common_shape first rest' else None
  | None :: _ => None
  end.

(** The shape [np.array] finds for a nested sequence: a scalar has shape
    [()], a list has its length in front of the common shape of its items,
    a list whose items disagree has none. *)
Fixpoint shape_of (v : pyval) : option (list nat) :=
  match v with
  | PList items =>
      match (fix shapes (l : list pyval) : list (option (list nat)) :=
               match l with
               | [] => []
               | x :: l' => shape_of x :: shapes l'
               end) items with
      | [] => Some [0%nat]
      | Some s :: rest =>
          match common_shape s rest with
          | Some s' => Some (length items :: s')
          | None => None
          end
      | None :: _ => None
      end
  | _ => Some []
  end.

(** [np.array(v)]: raises [ValueError] on a ragged nested sequence
    (numpy 1.24 and later), returns the array otherwise.  The array keeps the
    nested data as it was given: the conversion of the items to one dtype is
    numpy's and is not modelled, nor is the shape that the message of the
    [ValueError] goes on to report. *)
Definition array (v : pyval) : string + ndarray :=
  match shape_of v with
  | Some s => inr (mk_ndarray s v)
  | None =>
      inl "setting an array element with a sequence. The requested array has an inhomogeneous shape"
  end.

End np.

(** ** uuid *)

Module uuid.

Definition hex_digit (n : Z) : ascii :=
  match n with
  | 0 => "0" | 1 => "1" | 2 => "2" | 3 => "3" | 4 => "4" | 5 => "5"
  | 6 => "6" | 7 => "7" | 8 => "8" | 9 => "9" | 10 => "a" | 11 => "b"
  | 12 => "c" | 13 => "d" | 14 => "e" | _ => "f"
  end%char.

(** ['%0{width}x' % n] for [0 <= n < 16 ^ width]. *)
Fixpoint hex_fixed (width : nat) (n : Z) : string :=
  match width with
  | O => ""
  | S w => hex_fixed w (n `div` 16) +:+ String (hex_digit (n `mod` 16)) ""
  end.

(** [UUID.hex], ['%032x' % self.int], of a UUID whose 128-bit integer is
    [int]. *)
Definition hex (int : Z) : string := hex_fixed 32 int.

End uuid.

(** ** cloudevents.sdk.event.v1 *)

Module v1.

(** A CloudEvent of spec version 1.0: the attributes of [v1.Event], an absent
    attribute being Python's [None]. *)
Record Event : Type := mkEvent {
  ce__specversion : string;
  ce__id : option string;
  ce__source : option string;
  ce__type : option string;
  ce__datacontenttype : option string;
  ce__dataschema : option string;
  ce__subject : option string;
  ce__time : option string;
  ce__data : pyval;
  ce__extensions : gmap string string
}.

(** [v1.Event()]. *)
Definition new : Event :=
  {| ce__specversion := "1.0"; ce__id := None; ce__source := None;
     ce__type := None; ce__datacontenttype := None; ce__dataschema := None;
     ce__subject := None; ce__time := None; ce__data := PNone;
     ce__extensions := ∅ |}.

Definition EventID (e : Event) : option string := ce__id e.
Definition EventTime (e : Event) : option string := ce__time e.
Definition Extensions (e : Event) : gmap string string := ce__extensions e.
Definition Data (e : Event) : pyval := ce__data e.

Definition SetContentType (e : Event) (v : string) : Event :=
  {| ce__specversion := ce__specversion e; ce__id := ce__id e;
     ce__source := ce__source e; ce__type := ce__type e;
     ce__datacontenttype := Some v; ce__dataschema := ce__dataschema e;
     ce__subject := ce__subject e; ce__time := ce__time e;
     ce__data := ce__data e; ce__extensions := ce__extensions e |}.

Definition SetData (e : Event) (v : pyval) : Event :=
  {| ce__specversion := ce__specversion e; ce__id := ce__id e;
     ce__source := ce__source e; ce__type := ce__type e;
     ce__datacontenttype := ce__datacontenttype e;
     ce__dataschema := ce__dataschema e;
     ce__subject := ce__subject e; ce__time := ce__time e;
     ce__data := v; ce__extensions := ce__extensions e |}.

Definition SetEventID (e : Event) (v : string) : Event :=
  {| ce__specversion := ce__specversion e; ce__id := Some v;
     ce__source := ce__source e; ce__type := ce__type e;
     ce__datacontenttype := ce__datacontenttype e;
     ce__dataschema := ce__dataschema e;
     ce__subject := ce__subject e; ce__time := ce__time e;
     ce__data := ce__data e; ce__extensions := ce__extensions e |}.

Definition SetSource (e : Event) (v : string) : Event :=
  {| ce__specversion := ce__specversion e; ce__id := ce__id e;
     ce__source := Some v; ce__type := ce__type e;
     ce__datacontenttype := ce__datacontenttype e;
     ce__dataschema := ce__dataschema e;
     ce__subject := ce__subject e; ce__time := ce__time e;
     ce__data := ce__data e; ce__extensions := ce__extensions e |}.

Definition SetEventType (e : Event) (v : string) : Event :=
  {| ce__specversion := ce__specversion e; ce__id := ce__id e;
     ce__source := ce__source e; ce__type := Some v;
     ce__datacontenttype := ce__datacontenttype e;
     ce__dataschema := ce__dataschema e;
     ce__subject := ce__subject e; ce__time := ce__time e;
     ce__data := ce__data e; ce__extensions := ce__extensions e |}.

Definition SetEventTime (e : Event) (v : string) : Event :=
  {| ce__specversion := ce__specversion e; ce__id := ce__id e;
     ce__source := ce__source e; ce__type := ce__type e;
     ce__datacontenttype := ce__datacontenttype e;
     ce__dataschema := ce__dataschema e;
     ce__subject := ce__subject e; ce__time := Some v;
     ce__data := ce__data e; ce__extensions := ce__extensions e |}.

Definition SetExtensions (e : Event) (v : gmap string string) : Event :=
  {| ce__specversion := ce__specversion e; ce__id := ce__id e;
     ce__source := ce__source e; ce__type := ce__type e;
     ce__datacontenttype := ce__datacontenttype e;
     ce__dataschema := ce__dataschema e;
     ce__subject := ce__subject e; ce__time := ce__time e;
     ce__data := ce__data e; ce__extensions := v |}.

(** [Properties()]: the attributes that are not [None], by name. *)
Definition Properties (e : Event) : pyval :=
  let attr (k : string) (v : option string) : list (string * pyval) :=
    match v with Some s => [(k, PStr s)] | None => [] end in
  PDict
    ([("specversion", PStr (ce__specversion e))]
     ++ attr "id" (ce__id e) ++ attr "source" (ce__source e)
     ++ attr "type" (ce__type e)
     ++ attr "datacontenttype" (ce__datacontenttype e)
     ++ attr "dataschema" (ce__dataschema e)
     ++ attr "subject" (ce__subject e) ++ attr "time" (ce__time e)
     ++ match ce__data e with PNone => [] | d => [("data", d)] end
     ++ [("extensions",
          PDict (prod_map id PStr <$> map_to_list (ce__extensions e)))]).

End v1.

(** ** requests *)

Module requests.

Record Response : Type := mkResponse {
  status_code : Z;
  reason : string;
  url : string
}.

Definition HTTPError (msg : string) : RequestException :=
  mkRequestException "HTTPError" msg.

(** [requests.post(None, ...)]: the URL is prepared before anything is sent,
    and [str(None)] has no scheme. *)
Definition MissingSchema : RequestException :=
  mkRequestException "MissingSchema"
    "Invalid URL 'None': No scheme supplied. Perhaps you meant https://None?".

(** [Response.raise_for_status()]: raises [HTTPError] for a status in
    400..599, returns for every other status. *)
Definition raise_for_status (r : Response) : RequestException + unit :=
  if bool_decide (400 ≤ status_code r < 500) then
    inl (HTTPError (pretty (status_code r) +:+ " Client Error: " +:+ reason r
                    +:+ " for url: " +:+ url r))
  else if bool_decide (500 ≤ status_code r < 600) then
    inl (HTTPError (pretty (status_code r) +:+ " Server Error: " +:+ reason r
                    +:+ " for url: " +:+ url r))
  else inr ().

End requests.

(** ** Observable effects and the handler monad *)

Inductive LogLevel : Type := DEBUG | INFO | ERROR.

(** What a run does to the outside, in the order it does it. *)
Inductive Effect : Type :=
| Log (level : LogLevel) (msg : string)
    (* logging.debug / logging.info / logging.error *)
| ProcessEvent (model_name : string) (inputs : gmap string np.ndarray)
    (headers : gmap string pyval)
    (* model.process_event(inputs, headers) *)
| MetricsUpdate (metrics : pyval) (event_type : string)
    (* bdilab_metrics.update(metrics, event_type) *)
| SendCloudEvent (event : v1.Event) (url : option string)
    (* sendCloudEvent(event, url) is entered *)
| RequestsPost (url : option string) (headers : list (string * string))
    (data : bytes)
    (* requests.post(url, headers=..., data=...) *)
| WriteBody (chunk : string)
    (* self.write(chunk) *)
| Listen (port : Z) (workers : Z)
    (* HTTPServer.bind(port); HTTPServer.start(workers); IOLoop.start() *).

Definition is_ProcessEvent (e : Effect) : bool :=
  match e with ProcessEvent _ _ _ => true | _ => false end.
Definition is_MetricsUpdate (e : Effect) : bool :=
  match e with MetricsUpdate _ _ => true | _ => false end.
Definition is_SendCloudEvent (e : Effect) : bool :=
  match e with SendCloudEvent _ _ => true | _ => false end.
Definition is_RequestsPost (e : Effect) : bool :=
  match e with RequestsPost _ _ _ => true | _ => false end.
Definition is_WriteBody (e : Effect) : bool :=
  match e with WriteBody _ => true | _ => false end.

(** The outcome of running a piece of the server from a state [S]: the value
    it returns or the exception it raises, the state it leaves, and the
    effects it had.  A raise keeps the state and the effects reached so far,
    as a Python exception does. *)
Record Run (S A : Type) : Type := mkRun {
  outcome : exn + A;
  final : S;
  effects : list Effect
}.
Arguments mkRun {S A} _ _ _.
Arguments outcome {S A} _.
Arguments final {S A} _.
Arguments effects {S A} _.

Definition M (S A : Type) : Type := S → Run S A.

Section Monad.
Context {S : Type}.

Definition ret {A} (a : A) : M S A := λ s, mkRun (inr a) s [].

Definition raise {A} (e : exn) : M S A := λ s, mkRun (inl e) s [].

Definition bind {A B} (m : M S A) (k : A → M S B) : M S B := λ s,
  let r := m s in
  match outcome r with
  | inl e => mkRun (inl e) (final r) (effects r)
  | inr a =>
      let r' := k a (final r) in
      mkRun (outcome r') (final r') (effects r ++ effects r')
  end.

Definition emit (e : Effect) : M S unit := λ s, mkRun (inr ()) s [e].

Definition get : M S S := λ s, mkRun (inr s) s [].

Definition put (s' : S) : M S unit := λ _, mkRun (inr ()) s' [].

(** A call into a collaborator that returns or raises. *)
Definition call {A} (r : exn + A) : M S A :=
  match r with inl e => raise e | inr a => ret a end.

(** [for x in xs: body(x)]. *)
Fixpoint for_each {A} (xs : list A) (body : A → M S unit) : M S unit :=
  match xs with
  | [] => ret ()
  | x :: xs' => bind (body x) (λ _, for_each xs' body)
  end.

End Monad.

Global Instance M_ret {S} : MRet (M S) := λ A, ret.
Global Instance M_bind {S} : MBind (M S) := λ A B k m, bind m k.

(** The HTTP status a run ends with. *)
Definition status_of {S A} (r : Run S A) : Z :=
  match outcome r with
  | inl e => status_of_exn e
  | inr _ => 200
  end.

(** The response body of a run: what [self.write] buffered when the handler
    returned; tornado discards the buffer when the handler raises. *)
Definition written (tr : list Effect) : list string :=
  omap (λ e, match e with WriteBody chunk => Some chunk | _ => None end) tr.

(** ** Collaborators

    The calls [server.py] makes into code that is not its own.  Each class is
    one imported module; a method returns [inl] where the call raises. *)

(** [json]. [loads] is applied to the raw body, a [bytes] object; [dumps] to
    values of [pyval], all of them serializable. *)
Class Json : Type := {
  loads : bytes → json_error + pyval;
  dumps : pyval → string
}.

(** [str()] and [%s] of the values the file formats into messages. *)
Class Builtins : Type := {
  str : pyval → string;
  str_bytes : bytes → string;
  str_inputs : gmap string np.ndarray → string
}.

(** [cloudevents.sdk.marshaller.NewDefaultHTTPMarshaller()]: [FromRequest]
    with [json.loads] as the data unmarshaller, which raises one of the
    exceptions of [cloudevents.exceptions] on a request that is not an event;
    [ToRequest] with [converters.TypeBinary] and [json.dumps], which returns
    the headers, in the order of the dict, and the body; on an event whose
    data [json.dumps] takes, as every value of [pyval] is, it does not
    raise. *)
Class Marshaller : Type := {
  FromRequest : v1.Event → list (string * string) → bytes → string + v1.Event;
  ToRequest : v1.Event → list (string * string) * bytes
}.

(** What one call of [requests.post] gives once the URL is a string: the
    response the library returns, or the exception it raises.  The library
    follows redirects by default (301, 302, 303, 307 and 308 with a
    [Location]), so the response it returns is the last one of the exchange,
    not always the first answer of the destination; a 304 has nothing to
    follow and is returned as it is.  The exception is the one of the
    transport, or the one of a chain of redirects the library gives up. *)
Class Network : Type := {
  http_post : string → list (string * string) → bytes
              → RequestException + requests.Response
}.

(** The readings a request takes from its surroundings: the 128-bit integer of
    the UUID that [uuid.uuid1()] returns and the text of
    [datetime.now(timezone.utc).isoformat()]. *)
Class Ambient : Type := {
  uuid1 : Z;
  utcnow_isoformat : string
}.

(** [bdilab_model_monitor_server.base]: the response of a model and the model
    interface.  [data] and [metrics] are [PNone] when absent. *)
Record ModelResponse : Type := mkModelResponse {
  data : pyval;
  metrics : pyval
}.

Record CEModel : Type := mkCEModel {
  name : string;
  process_event : gmap string np.ndarray → gmap string pyval
                  → exn + option ModelResponse
}.

(** [protocols.request_handler.RequestHandler]: the interface of a request
    handler, an object built around the parsed body. *)
Record RequestHandler : Type := mkRequestHandler {
  validate : exn + unit;
  extract_request : exn + (pyval * pyval * pyval)
}.

(** Modelled from the spec: the enumeration [Protocol] of
    [bdilab_model_monitor_server.protocols], imported by the file and declared
    elsewhere.  The spec gives it one variant, "common_http", in a set that is
    extended by adding variants; [unregistered] stands for any value other than
    that variant, carried by the text [str()] gives it. *)
Inductive Protocol : Type :=
| common_http
| unregistered (repr : string).

Global Instance Protocol_eq_dec : EqDecision Protocol.
Proof. solve_decision. Defined.

Definition str_protocol (p : Protocol) : string :=
  match p with
  | common_http => "Protocol.common_http"
  | unregistered repr => repr
  end.

(** [protocols.common_http.CommonRequestHandler], the one implementation of
    [RequestHandler]. *)
Class Protocols : Type := {
  CommonRequestHandler : pyval → RequestHandler
}.

(** [prometheus_metrics.metrics]: [validate_metrics] and the [update] method of
    [BdilabMetrics], over a registry of type [R]. *)
Class Metrics (R : Type) : Type := {
  validate_metrics : pyval → bool;
  update : R → pyval → string → R
}.

Definition CRLF : string :=
  String (ascii_of_nat 13) (String (ascii_of_nat 10) "").

(** ** server.py *)

Definition DEFAULT_HTTP_PORT : Z := 8080.

(** [tornado.httputil.HTTPServerRequest], as far as the handler reads it:
    [request_headers] is what [self.request.headers.get_all()] yields, and
    what the marshaller reads the headers from.  tornado keeps the name of a
    header in its normalised form, every word between hyphens capitalised
    ([Content-Type], [Ce-Id], and [Task_type] for a header the client sent as
    [task_type]); the handler takes the names as they come. *)
Record HTTPServerRequest : Type := mkRequest {
  request_headers : list (string * string);
  request_body : bytes
}.

(** The attributes [EventHandler.initialize] stores (lines 161-175);
    [bdilab_metrics] is the registry a run is threaded through. *)
Record EventHandler : Type := mkEventHandler {
  handler_protocol : Protocol;
  handler_model : option CEModel;
  handler_reply_url : option string;
  handler_event_type : string;
  handler_event_source : string
}.

(** Lines 113-131. *)
Definition get_request_handler `{Protocols} (protocol : Protocol)
    (request : pyval) : exn + RequestHandler :=
  if decide (protocol = common_http) then
    inr (CommonRequestHandler request)
  else
    inl (Exception ("Unknown protocol " +:+ str_protocol protocol)).

Section Handlers.
Context {R : Type}.
Context `{Json, Builtins, Marshaller, Network, Ambient, Protocols, Metrics R}.

Definition logging_debug (msg : string) : M R unit := emit (Log DEBUG msg).
Definition logging_info (msg : string) : M R unit := emit (Log INFO msg).
Definition logging_error (msg : string) : M R unit := emit (Log ERROR msg).

(** [requests.post(url, headers=..., data=...)]: one call, recorded as one
    effect, whatever the library exchanges with the destination and with the
    places it is redirected to inside that call. *)
Definition requests_post (url : option string)
    (headers : list (string * string)) (body : bytes)
    : M R requests.Response :=
  emit (RequestsPost url headers body) ;;
  match url with
  | None => raise (RequestsError requests.MissingSchema)
  | Some u =>
      match http_post u headers body with
      | inl e => raise (RequestsError e)
      | inr response => mret response
      end
  end.

(** Lines 134-157. *)
Definition sendCloudEvent (event : v1.Event) (url : option string)
    : M R unit :=
  emit (SendCloudEvent event url) ;;
  let '(binary_headers, binary_data) := ToRequest event in
  logging_info "binary CloudEvent" ;;
  for_each binary_headers
    (λ '(k, v), logging_info (k +:+ ": " +:+ v +:+ CRLF)) ;;
  logging_info (str_bytes binary_data) ;;
  response ← requests_post url binary_headers binary_data ;
  match requests.raise_for_status response with
  | inl e => raise (RequestsError e)
  | inr _ => mret ()
  end.

(** Lines 181-187. *)
Definition parse_body (request : HTTPServerRequest) : M R pyval :=
  match loads (request_body request) with
  | inr body => mret body
  | inl (JSONDecodeError msg as e) =>
      raise (HTTPError BAD_REQUEST
               ("Unrecognized request format: " +:+ json_error_str e))
  | inl e => raise (JsonError e)
  end.

(** Lines 211-218: the two conversions under one [try]. *)
Definition convert_inputs (y_true y_pred : pyval)
    : exn + gmap string np.ndarray :=
  let inputs : gmap string np.ndarray := ∅ in
  let failed (e : string) (inputs : gmap string np.ndarray) : exn :=
    Exception ("Failed to initialize NumPy array from inputs: " +:+ e
               +:+ ", " +:+ str_inputs inputs) in
  match np.array y_true with
  | inl e => inl (failed e inputs)
  | inr a_true =>
      let inputs := <["y_true" := a_true]> inputs in
      match np.array y_pred with
      | inl e => inl (failed e inputs)
      | inr a_pred => inr (<["y_pred" := a_pred]> inputs)
      end
  end.

(** Line 219: [self.model.process_event(inputs, headers)], and the attribute
    read of line 221 on what it returns. *)
Definition invoke_model (self : EventHandler)
    (inputs : gmap string np.ndarray) (headers : gmap string pyval)
    : M R ModelResponse :=
  match handler_model self with
  | None =>
      raise (AttributeError
               "'NoneType' object has no attribute 'process_event'")
  | Some model =>
      emit (ProcessEvent (name model) inputs headers) ;;
      response ← call (process_event model inputs headers) ;
      match response with
      | None =>
          raise (AttributeError
                   "'NoneType' object has no attribute 'metrics'")
      | Some response => mret response
      end
  end.

(** Lines 221-226. *)
Definition metrics_side_effect (self : EventHandler)
    (runtime_metrics : pyval) : M R unit :=
  if negb (is_None runtime_metrics) then
    if validate_metrics runtime_metrics then
      emit (MetricsUpdate runtime_metrics (handler_event_type self)) ;;
      registry ← get ;
      put (update registry runtime_metrics (handler_event_type self))
    else
      logging_error ("Metrics returned are invalid: "
                     +:+ str runtime_metrics)
  else mret ().

(** Lines 230-243: the reply event. *)
Definition reply_event (self : EventHandler) (event : v1.Event)
    (response_data : pyval) : v1.Event :=
  let resp_event_id :=
    match v1.EventID event with
    | None => uuid.hex uuid1
    | Some i => if decide (i = "") then uuid.hex uuid1 else i
    end in
  v1.SetExtensions
    (v1.SetEventTime
       (v1.SetEventType
          (v1.SetSource
             (v1.SetEventID
                (v1.SetData
                   (v1.SetContentType v1.new "application/json")
                   response_data)
                resp_event_id)
             (handler_event_source self))
          (handler_event_type self))
       utcnow_isoformat)
    (v1.Extensions event).

(** Lines 227-246. *)
Definition relay_and_respond (self : EventHandler) (event : v1.Event)
    (response_data : pyval) : M R unit :=
  if negb (is_None response_data) then
    (* Create event from response if reply_url is active *)
    (if decide (handler_reply_url self ≠ Some "") then
       let revent := reply_event self event response_data in
       logging_debug (dumps (v1.Properties revent)) ;;
       sendCloudEvent revent (handler_reply_url self)
     else mret ()) ;;
    emit (WriteBody (dumps response_data))
  else mret ().

(** Lines 192-246: the pipeline once the request handler is resolved. *)
Definition handle_payload (self : EventHandler)
    (request : HTTPServerRequest) (request_handler : RequestHandler)
    : M R unit :=
  call (validate request_handler) ;;
  '(y_pred, y_true, task_type) ← call (extract_request request_handler) ;
  (* Create event from request body *)
  event ←
    match FromRequest v1.new (request_headers request)
            (request_body request) with
    | inl msg => raise (Raised "cloudevents.exceptions" msg)
    | inr event => mret event
    end ;
  logging_debug (dumps (v1.Properties event)) ;;
  (* Extract any desired request headers *)
  let headers : gmap string pyval :=
    <["task_type" := task_type]>
      (foldl (λ headers '(key, val), <[key := PStr val]> headers) ∅
         (request_headers request)) in
  inputs ← call (convert_inputs y_true y_pred) ;
  response ← invoke_model self inputs headers ;
  metrics_side_effect self (metrics response) ;;
  relay_and_respond self event (data response).

(** Lines 177-246. *)
Definition post (self : EventHandler) (request : HTTPServerRequest)
    : M R unit :=
  body ← parse_body request ;
  (* Extract payload from request *)
  request_handler ← call (get_request_handler (handler_protocol self) body) ;
  handle_payload self request request_handler.

End Handlers.

(** ** The server shell (lines 34-110) *)

(** [tornado.web.Application]: the handler arguments of its routes.  The
    metrics route reads the registry. *)
Record Application : Type := mkApplication {
  route_events : EventHandler;
  route_protocol : Protocol
}.

Record CEServer : Type := mkCEServer {
  registered_model : option CEModel;
  http_port : Z;
  protocol : Protocol;
  reply_url : option string;
  _http_server : option Application;
  event_type : string;
  event_source : string
}.

(** Lines 35-62: [__init__].  An argument left out is [None] here; the
    defaults are the signature's, [DEFAULT_HTTP_PORT] and [None]. *)
Definition CEServer_init (protocol : Protocol) (event_type : string)
    (event_source : string) (http_port : option Z) (reply_url : option string)
    : CEServer :=
  {| registered_model := None;
     http_port := default DEFAULT_HTTP_PORT http_port;
     protocol := protocol;
     reply_url := reply_url;
     _http_server := None;
     event_type := event_type;
     event_source := event_source |}.

(** Lines 64-89. *)
Definition create_application (self : CEServer) : Application :=
  {| route_events :=
       {| handler_protocol := protocol self;
          handler_model := registered_model self;
          handler_reply_url := reply_url self;
          handler_event_type := event_type self;
          handler_event_source := event_source self |};
     route_protocol := protocol self |}.

(** Lines 105-110. *)
Definition register_model (model : CEModel) : M CEServer unit :=
  if decide (name model = "") then
    raise (Exception "Failed to register model, model.name must be provided.")
  else
    self ← get ;
    put {| registered_model := Some model;
           http_port := http_port self;
           protocol := protocol self;
           reply_url := reply_url self;
           _http_server := _http_server self;
           event_type := event_type self;
           event_source := event_source self |} ;;
    emit (Log INFO ("Registering model:" +:+ name model)).

(** Lines 91-103.  The run ends where the server goes to listen: [Listen]
    stands for the calls of lines 101-103, and the outcome [inr ()] says that
    they were reached.  What tornado does inside them, a [bind] that fails on
    a port in use and a loop that runs until it is stopped, is not modelled. *)
Definition start (model : CEModel) : M CEServer unit :=
  register_model model ;;
  self ← get ;
  put {| registered_model := registered_model self;
         http_port := http_port self;
         protocol := protocol self;
         reply_url := reply_url self;
         _http_server := Some (create_application self);
         event_type := event_type self;
         event_source := event_source self |} ;;
  emit (Log INFO ("Listening on port " +:+ pretty (http_port self))) ;;
  emit (Listen (http_port self) 1).

(** ** The repository modules the file imports *)

(** [d.get(k)] on a value that may or may not be a dict. *)
Definition dict_get (k : string) (v : pyval) : option pyval :=
  match v with
  | PDict items =>
      (fix lookup (items : list (string * pyval)) : option pyval :=
         match items with
         | [] => None
         | (k', v') :: items' =>
             if decide (k' = k) then Some v' else lookup items'
         end) items
  | _ => None
  end.

Definition is_list (v : pyval) : bool :=
  match v with PList _ => true | _ => false end.
Definition is_str (v : pyval) : bool :=
  match v with PStr _ => true | _ => false end.
Definition is_number (v : pyval) : bool :=
  match v with PInt _ | PFloat _ => true | _ => false end.

Module CommonHttp.

(** Modelled from the spec: [validate] of the common protocol's request
    handler, which is not part of the file.  The spec has it check that the
    required fields are present and have the right shapes, without reading
    the values, and has a failure answered with 400. *)
Definition validate (request : pyval) : exn + unit :=
  match dict_get "predicted" request, dict_get "actual" request,
        dict_get "taskType" request with
  | Some p, Some a, Some t =>
      if is_list p && is_list a && is_str t then inr ()
      else inl (HTTPError BAD_REQUEST "Invalid request: wrong field shape")
  | _, _, _ =>
      inl (HTTPError BAD_REQUEST "Invalid request: missing field")
  end.

(** Modelled from the spec: [extract_request], the field pulls; a field that
    is absent fails the request with an error that names it. *)
Definition extract_request (request : pyval) : exn + (pyval * pyval * pyval) :=
  match dict_get "predicted" request with
  | None => inl (Exception "Failed to extract field predicted")
  | Some y_pred =>
      match dict_get "actual" request with
      | None => inl (Exception "Failed to extract field actual")
      | Some y_true =>
          match dict_get "taskType" request with
          | None => inl (Exception "Failed to extract field taskType")
          | Some task_type => inr (y_pred, y_true, task_type)
          end
      end
  end.

Definition CommonRequestHandler (request : pyval) : RequestHandler :=
  mkRequestHandler (validate request) (extract_request request).

End CommonHttp.

Module PrometheusMetrics.

(** Lines 27-31: the labels every record gets.  The namespace is the
    environment's [DEPLOYMENT_NAMESPACE], or the default of the source. *)
Definition DEFAULT_LABELS (deployment_namespace : option string)
  : gmap string string :=
  {[ "deployment_namespace" := default "NOT_IMPLEMENTED" deployment_namespace ]}.

(** Modelled from the spec: the registry of [BdilabMetrics], declared outside
    the file: the last value of every (metric name, label set), and the
    default labels fixed at startup. *)
Record BdilabMetrics : Type := mkBdilabMetrics {
  extra_default_labels : gmap string string;
  samples : gmap (string * list (string * string)) Qc
}.

Definition new (extra_default_labels : gmap string string) : BdilabMetrics :=
  mkBdilabMetrics extra_default_labels ∅.

Definition recognized_types : list string := ["gauge"; "counter"].

(** Modelled from the spec: a record is well formed when its name is not
    empty, its type tag is a recognized one and its value is a number. *)
Definition valid_record (record : pyval) : bool :=
  match dict_get "name" record, dict_get "type" record,
        dict_get "value" record with
  | Some (PStr n), Some (PStr t), Some v =>
      bool_decide (n ≠ "") && bool_decide (t ∈ recognized_types)
      && is_number v
  | _, _, _ => false
  end.

(** Modelled from the spec: [validate_metrics], all or nothing over the
    batch. *)
Definition validate_metrics (batch : pyval) : bool :=
  match batch with
  | PList records => forallb valid_record records
  | _ => false
  end.

Definition number (v : pyval) : option Qc :=
  match v with
  | PInt z => Some (Qc_of_Z z)
  | PFloat q => Some q
  | _ => None
  end.

Definition labels_of (record : pyval) : gmap string string :=
  match dict_get "labels" record with
  | Some (PDict items) =>
      list_to_map
        (omap (λ kv, match kv.2 with
                     | PStr s => Some (kv.1, s)
                     | _ => None
                     end) items)
  | _ => ∅
  end.

(** Modelled from the spec: one record merged under the key
    (name, sorted(labels ∪ defaultLabels)); a gauge overwrites the value, a
    counter adds to it. *)
Definition merge (self : BdilabMetrics) (record : pyval) : BdilabMetrics :=
  match dict_get "name" record, dict_get "type" record,
        dict_get "value" record ≫= number with
  | Some (PStr n), Some (PStr t), Some x =>
      let key := (n, map_to_list (labels_of record ∪ extra_default_labels self)) in
      let x' :=
        if decide (t = "counter")
        then (default 0%Qc (samples self !! key) + x)%Qc
        else x in
      mkBdilabMetrics (extra_default_labels self) (<[key := x']> (samples self))
  | _, _, _ => self
  end.

(** Modelled from the spec: [BdilabMetrics.update(batch, eventType)]. *)
Definition update (self : BdilabMetrics) (batch : pyval) (event_type : string)
  : BdilabMetrics :=
  match batch with
  | PList records => foldl merge self records
  | _ => self
  end.

End PrometheusMetrics.

(** ** A fixture: one implementation of every collaborator

    The examples at the end run the pipeline on concrete requests.  They use
    the implementations below: the repository modules as the spec describes
    them, the libraries as they answer on the requests of the examples. *)

Module Fixture.

(** A text written with ['] where JSON has the double quote. *)
Fixpoint dq (s : string) : string :=
  match s with
  | EmptyString => EmptyString
  | String c s' =>
      String (if decide (c = "'"%char) then ascii_of_nat 34 else c) (dq s')
  end.

Definition encode (s : string) : bytes := String.list_byte_of_string s.

(** Two payloads of the common protocol, one with sequences of equal
    lengths and one with three predictions against two labels; a body that
    is not a JSON text; a body that is not text. *)
Definition body_equal : bytes :=
  encode (dq "{'predicted': [1, 0, 1], 'actual': [1, 1, 1], 'taskType': 'classification'}").
Definition body_3_2 : bytes :=
  encode (dq "{'predicted': [1, 0, 1], 'actual': [1, 1], 'taskType': 'classification'}").
Definition body_not_json : bytes := encode "predicted=1,0,1".
Definition body_not_utf8 : bytes := [Byte.xff].

Definition payload (predicted actual : list Z) : pyval :=
  PDict [("predicted", PList (PInt <$> predicted));
         ("actual", PList (PInt <$> actual));
         ("taskType", PStr "classification")].

(** [json.loads] on the four bodies.  Any other body is outside the
    fixture and is answered like text that is not JSON. *)
Definition json_loads (body : bytes) : json_error + pyval :=
  let text := String.string_of_list_byte body in
  if decide (text = String.string_of_list_byte body_equal) then
    inr (payload [1; 0; 1] [1; 1; 1])
  else if decide (text = String.string_of_list_byte body_3_2) then
    inr (payload [1; 0; 1] [1; 1])
  else if decide (text = String.string_of_list_byte body_not_utf8) then
    inl (UnicodeDecodeError
           "'utf-8' codec can't decode byte 0xff in position 0: invalid start byte")
  else
    inl (JSONDecodeError "Expecting value: line 1 column 1 (char 0)").

(** A printer of values in the layout of [json.dumps] (with ['] for the
    double quote when [repr] is set, as [str()] prints).  Text is printed
    without escapes and a float as a fraction: the examples have neither
    special characters nor floats. *)
Fixpoint render (repr : bool) (v : pyval) : string :=
  let quote := if repr then "'" else String (ascii_of_nat 34) "" in
  match v with
  | PNone => if repr then "None" else "null"
  | PBool true => if repr then "True" else "true"
  | PBool false => if repr then "False" else "false"
  | PInt z => pretty z
  | PFloat q => pretty (Qnum q) +:+ "/" +:+ pretty (Zpos (Qden q))
  | PStr s => quote +:+ s +:+ quote
  | PList items =>
      "[" +:+ String.concat ", "
                ((fix each (l : list pyval) : list string :=
                    match l with
                    | [] => []
                    | x :: l' => render repr x :: each l'
                    end) items) +:+ "]"
  | PDict items =>
      "{" +:+ String.concat ", "
                ((fix each (l : list (string * pyval)) : list string :=
                    match l with
                    | [] => []
                    | (k, x) :: l' =>
                        (quote +:+ k +:+ quote +:+ ": " +:+ render repr x)
                        :: each l'
                    end) items) +:+ "}"
  end.

Definition json_dumps : pyval → string := render false.

Definition format_inputs (inputs : gmap string np.ndarray) : string :=
  "{" +:+ String.concat ", "
            ((λ '(k, a), "'" +:+ k +:+ "': array("
                         +:+ render true (np.tolist a) +:+ ")")
             <$> map_to_list inputs) +:+ "}".

Definition format_bytes (b : bytes) : string :=
  "b'" +:+ String.string_of_list_byte b +:+ "'".

Definition lower_ascii (c : ascii) : ascii :=
  let n := nat_of_ascii c in
  if bool_decide (65 ≤ n ≤ 90)%nat then ascii_of_nat (n + 32) else c.

Fixpoint lower (s : string) : string :=
  match s with
  | EmptyString => EmptyString
  | String c s' => String (lower_ascii c) (lower s')
  end.

(** [Event.Set(key, value)]: a known attribute is set, any other name is an
    extension. *)
Definition Set_ (e : v1.Event) (key value : string) : v1.Event :=
  if decide (key = "id") then v1.SetEventID e value
  else if decide (key = "source") then v1.SetSource e value
  else if decide (key = "type") then v1.SetEventType e value
  else if decide (key = "time") then v1.SetEventTime e value
  else if decide (key = "specversion") then e
  else v1.SetExtensions e (<[key := value]> (v1.Extensions e)).

Definition has_binary_headers (headers : list (string * string)) : bool :=
  let names := (λ kv, lower kv.1) <$> headers in
  forallb (λ k, bool_decide (k ∈ names))
    ["ce-specversion"; "ce-source"; "ce-type"; "ce-id"].

(** The marshaller on a request in binary mode; a request in structured mode
    is outside the fixture. *)
Definition read_request (event : v1.Event) (headers : list (string * string))
    (body : bytes) : string + v1.Event :=
  if has_binary_headers headers then
    let event :=
      foldl (λ e '(header, value),
               let header := lower header in
               if decide (header = "content-type")
               then v1.SetContentType e value
               else match header with
                    | String "c" (String "e" (String "-" key)) => Set_ e key value
                    | _ => e
                    end)
        event headers in
    match json_loads body with
    | inl e => inl ("Failed to unmarshall data with error: " +:+ json_error_str e)
    | inr raw_ce => inr (v1.SetData event raw_ce)
    end
  else inl "Unable to identify valid event converter for content-type".

Definition write_request (event : v1.Event) : list (string * string) * bytes :=
  let attr (k : string) (v : option string) : list (string * string) :=
    match v with Some s => [(k, s)] | None => [] end in
  (attr "content-type" (v1.ce__datacontenttype event)
   ++ [("ce-specversion", v1.ce__specversion event)]
   ++ attr "ce-id" (v1.ce__id event) ++ attr "ce-source" (v1.ce__source event)
   ++ attr "ce-type" (v1.ce__type event)
   ++ attr "ce-dataschema" (v1.ce__dataschema event)
   ++ attr "ce-subject" (v1.ce__subject event)
   ++ attr "ce-time" (v1.ce__time event)
   ++ ((λ kv, ("ce-" +:+ kv.1, kv.2)) <$> map_to_list (v1.Extensions event)),
   encode (json_dumps (v1.Data event))).

(** Four destinations: one that accepts, one that answers 304, one that
    answers 503, one that refuses the connection. *)
Definition sink_ok : string := "http://sink.example/events".
Definition sink_not_modified : string := "http://sink.example/cached".
Definition sink_unavailable : string := "http://sink.example/busy".
Definition sink_unreachable : string := "http://unreachable.example/events".

Definition answer_post (url : string) (headers : list (string * string))
    (body : bytes) : RequestException + requests.Response :=
  if decide (url = sink_ok) then inr (requests.mkResponse 200 "OK" url)
  else if decide (url = sink_not_modified) then
    inr (requests.mkResponse 304 "Not Modified" url)
  else if decide (url = sink_unavailable) then
    inr (requests.mkResponse 503 "Service Unavailable" url)
  else inl (mkRequestException "ConnectionError" "Connection refused").

#[export] Instance json : Json := Build_Json json_loads json_dumps.
#[export] Instance builtins : Builtins :=
  Build_Builtins (render true) format_bytes format_inputs.
#[export] Instance marshaller : Marshaller :=
  Build_Marshaller read_request write_request.
#[export] Instance network : Network := Build_Network answer_post.
#[export] Instance ambient : Ambient :=
  {| uuid1 := 0x6ba7b8109dad11d180b400c04fd430c8;
     utcnow_isoformat := "2024-05-17T09:30:00.250000+00:00" |}.
#[export] Instance protocols : Protocols :=
  {| CommonRequestHandler := CommonHttp.CommonRequestHandler |}.
#[export] Instance prometheus : Metrics PrometheusMetrics.BdilabMetrics :=
  {| validate_metrics := PrometheusMetrics.validate_metrics;
     update := PrometheusMetrics.update |}.

Definition registry0 : PrometheusMetrics.BdilabMetrics :=
  PrometheusMetrics.new (PrometheusMetrics.DEFAULT_LABELS None).

Definition length_of (inputs : gmap string np.ndarray) (k : string) : pyval :=
  match inputs !! k with
  | Some a => PInt (Z.of_nat (default 0%nat (head (np.shape a))))
  | None => PNone
  end.

Definition metric (n t : string) (value : pyval) : pyval :=
  PDict [("name", PStr n); ("type", PStr t); ("value", value);
         ("labels", PDict [])].

(** A model that answers with the sizes of its inputs and counts its
    calls. *)
Definition counting : CEModel :=
  {| name := "counting";
     process_event inputs headers :=
       inr (Some {| data := PDict [("n_pred", length_of inputs "y_pred");
                                   ("n_true", length_of inputs "y_true")];
                    metrics := PList [metric "events_total" "counter" (PInt 1)] |}) |}.

(** The same model with a text where the value of its metric should be. *)
Definition miscounting : CEModel :=
  {| name := "miscounting";
     process_event inputs headers :=
       inr (Some {| data := PDict [("n_pred", length_of inputs "y_pred");
                                   ("n_true", length_of inputs "y_true")];
                    metrics := PList [metric "events_total" "counter" (PStr "one")] |}) |}.

(** A model that reports a metric and answers nothing. *)
Definition silent : CEModel :=
  {| name := "silent";
     process_event inputs headers :=
       inr (Some {| data := PNone;
                    metrics := PList [metric "events_total" "counter" (PInt 1)] |}) |}.

(** A model without a name. *)
Definition nameless : CEModel :=
  {| name := ""; process_event inputs headers := inr None |}.

(** A request in binary mode around [body], with two extension attributes
    and the given event id. *)
Definition binary_request (id : string) (body : bytes) : HTTPServerRequest :=
  {| request_headers :=
       [("Content-Type", "application/json"); ("Ce-Specversion", "1.0");
        ("Ce-Id", id); ("Ce-Source", "tests"); ("Ce-Type", "monitor.request");
        ("Ce-Time", "2001-01-01T00:00:00+00:00");
        ("Ce-A", "1"); ("Ce-B", "2")];
     request_body := body |}.

(** [CEServer(Protocol.common_http, "monitor.reply", "monitor",
    reply_url=reply_url)], the port left at its default. *)
Definition server (reply_url : option string) : CEServer :=
  CEServer_init common_http "monitor.reply" "monitor" None reply_url.

(** The handler of the event route once [server reply_url] was started with
    [model]; a server that did not start has its handler as it was
    constructed, without a model. *)
Definition handler (model : CEModel) (reply_url : option string)
  : EventHandler :=
  let started := final (start model (server reply_url)) in
  route_events (default (create_application started) (_http_server started)).

(** The event the marshaller reads from [binary_request id body], for the
    two payloads. *)
Definition inbound (id : string) (predicted actual : list Z) : v1.Event :=
  {| v1.ce__specversion := "1.0"; v1.ce__id := Some id;
     v1.ce__source := Some "tests"; v1.ce__type := Some "monitor.request";
     v1.ce__datacontenttype := Some "application/json";
     v1.ce__dataschema := None; v1.ce__subject := None;
     v1.ce__time := Some "2001-01-01T00:00:00+00:00";
     v1.ce__data := payload predicted actual;
     v1.ce__extensions := {[ "a" := "1"; "b" := "2" ]} |}.

(** What the models above are called with, and what they answer. *)
Definition inputs_of (predicted actual : list Z) : gmap string np.ndarray :=
  {[ "y_true" := np.mk_ndarray [length actual] (PList (PInt <$> actual));
     "y_pred" := np.mk_ndarray [length predicted]
                   (PList (PInt <$> predicted)) ]}.

Definition sizes (n_pred n_true : Z) : pyval :=
  PDict [("n_pred", PInt n_pred); ("n_true", PInt n_true)].

End Fixture.

(** ** Vocabulary of the statements *)

Section Vocabulary.
Context {R : Type}.
Context `{Json, Builtins, Marshaller, Network, Ambient, Protocols, Metrics R}.

(** What [sendCloudEvent] logs and sends before the destination answers. *)
Definition delivery_effects (event : v1.Event) (url : option string)
  : list Effect :=
  [SendCloudEvent event url; Log INFO "binary CloudEvent"]
  ++ ((λ '(k, v), Log INFO (k +:+ ": " +:+ v +:+ CRLF))
        <$> (ToRequest event).1)
  ++ [Log INFO (str_bytes (ToRequest event).2);
      RequestsPost url (ToRequest event).1 (ToRequest event).2].

(** Lines 221-246: the pipeline from the moment the model has answered. *)
Definition after_model (self : EventHandler) (event : v1.Event)
    (response : ModelResponse) : M R unit :=
  metrics_side_effect self (metrics response) ;;
  relay_and_respond self event (data response).

(** The headers the model is called with (lines 205-209). *)
Definition context_of (request : HTTPServerRequest) (task_type : pyval)
  : gmap string pyval :=
  <["task_type" := task_type]>
    (foldl (λ headers '(key, val), <[key := PStr val]> headers) ∅
       (request_headers request)).

(** Lines 181-218: the pipeline up to the call of the model, which depends
    on the protocol of the handler and on nothing else of it.  It returns
    the event, the inputs and the headers the rest needs. *)
Definition prepare (protocol : Protocol) (request : HTTPServerRequest)
    : M R (v1.Event * gmap string np.ndarray * gmap string pyval) :=
  body ← parse_body request ;
  request_handler ← call (get_request_handler protocol body) ;
  call (validate request_handler) ;;
  '(y_pred, y_true, task_type) ← call (extract_request request_handler) ;
  event ←
    match FromRequest v1.new (request_headers request)
            (request_body request) with
    | inl msg => raise (Raised "cloudevents.exceptions" msg)
    | inr event => mret event
    end ;
  logging_debug (dumps (v1.Properties event)) ;;
  inputs ← call (convert_inputs y_true y_pred) ;
  mret (event, inputs, context_of request task_type).

(** The effects of a request that stops before the model is called. *)
Inductive before_model : list Effect → Prop :=
| before_event : before_model []
| before_inputs d : before_model [Log DEBUG d].

(** The three ways a request runs: it stops before the model is called, the
    model raises or returns [None], or the model answers and lines 221-246
    run on its answer. *)
Inductive post_run (self : EventHandler) (request : HTTPServerRequest)
    (s : R) : Run R unit → Prop :=
| post_stops e pre :
    before_model pre →
    post_run self request s (mkRun (inl e) s pre)
| post_model_fails event model inputs headers e :
    handler_model self = Some model →
    (∀ response, process_event model inputs headers ≠ inr (Some response)) →
    post_run self request s
      (mkRun (inl e) s
         [Log DEBUG (dumps (v1.Properties event));
          ProcessEvent (name model) inputs headers])
| post_model_answers event model inputs headers response :
    prepare (handler_protocol self) request s
      = mkRun (inr (event, inputs, headers)) s
          [Log DEBUG (dumps (v1.Properties event))] →
    FromRequest v1.new (request_headers request) (request_body request)
      = inr event →
    handler_model self = Some model →
    process_event model inputs headers = inr (Some response) →
    post_run self request s
      (let t := after_model self event response s in
       mkRun (outcome t) (final t)
         ([Log DEBUG (dumps (v1.Properties event));
           ProcessEvent (name model) inputs headers] ++ effects t)).

(** The handler [self] around another model. *)
Definition with_model (self : EventHandler) (model : CEModel)
  : EventHandler :=
  {| handler_protocol := handler_protocol self;
     handler_model := Some model;
     handler_reply_url := handler_reply_url self;
     handler_event_type := handler_event_type self;
     handler_event_source := handler_event_source self |}.

(** The model that answers as [model] does and reports no metrics. *)
Definition without_metrics (model : CEModel) : CEModel :=
  {| name := name model;
     process_event inputs headers :=
       match process_event model inputs headers with
       | inr (Some response) =>
           inr (Some {| data := data response; metrics := PNone |})
       | r => r
       end |}.

(** The effects of the relay and of the response. *)
Definition relays_or_responds (e : Effect) : bool :=
  is_SendCloudEvent e || is_RequestsPost e || is_WriteBody e.

(** The calls of [requests.post] in a run: URL, headers and body. *)
Definition posts (tr : list Effect)
  : list (option string * list (string * string) * bytes) :=
  omap (λ e, match e with
             | RequestsPost url headers body => Some (url, headers, body)
             | _ => None
             end) tr.


End Vocabulary.

(** ** Vocabulary of the statements on the rest of the file *)

(** How many effects of a run satisfy [p]. *)
Definition count (p : Effect → bool) (tr : list Effect) : nat :=
  length (List.filter p tr).

(** The value a dict has under [k] once the pairs were stored one after the
    other: the value of the last pair with that key. *)
Definition last_value (k : string) (pairs : list (string * string))
  : option string :=
  last (omap (λ kv, if decide (kv.1 = k) then Some kv.2 else None) pairs).

Section Bookkeeping.
Context {R : Type} `{Metrics R}.

(** The registry after the calls of [update] that a run made, in order. *)
Definition replay_updates (s : R) (tr : list Effect) : R :=
  foldl (λ registry e,
           match e with
           | MetricsUpdate m t => update registry m t
           | _ => registry
           end) s tr.

End Bookkeeping.

(** ** More requests for the examples *)

Module Rejects.

(** A payload without its labels, and a payload whose predictions are a
    nested list with rows of two lengths. *)
Definition body_no_actual : bytes :=
  Fixture.encode
    (Fixture.dq "{'predicted': [1, 0, 1], 'taskType': 'classification'}").
Definition body_ragged : bytes :=
  Fixture.encode
    (Fixture.dq "{'predicted': [[1, 0], [1]], 'actual': [1, 1], 'taskType': 'classification'}").

Definition ragged : pyval :=
  PList [PList [PInt 1; PInt 0]; PList [PInt 1]].

(** [json.loads] on the two bodies, and as in [Fixture] on every other. *)
Definition json_loads (body : bytes) : json_error + pyval :=
  let text := String.string_of_list_byte body in
  if decide (text = String.string_of_list_byte body_no_actual) then
    inr (PDict [("predicted", PList (PInt <$> [1; 0; 1]));
                ("taskType", PStr "classification")])
  else if decide (text = String.string_of_list_byte body_ragged) then
    inr (PDict [("predicted", ragged);
                ("actual", PList (PInt <$> [1; 1]));
                ("taskType", PStr "classification")])
  else Fixture.json_loads body.

(** The marshaller of [Fixture] around this [json.loads]: the attributes come
    from the headers, the data from the body. *)
Definition read_request (event : v1.Event) (headers : list (string * string))
    (body : bytes) : string + v1.Event :=
  match Fixture.read_request event headers Fixture.body_equal with
  | inl msg => inl msg
  | inr e =>
      match json_loads body with
      | inl err =>
          inl ("Failed to unmarshall data with error: " +:+ json_error_str err)
      | inr raw_ce => inr (v1.SetData e raw_ce)
      end
  end.

Definition json : Json := Build_Json json_loads Fixture.json_dumps.
Definition marshaller : Marshaller :=
  Build_Marshaller read_request Fixture.write_request.

(** A model that raises a tornado error of its own, and one that returns
    [None]. *)
Definition refusing : CEModel :=
  {| name := "refusing";
     process_event inputs headers :=
       inl (HTTPError 422 "Unprocessable payload") |}.
Definition absent : CEModel :=
  {| name := "absent"; process_event inputs headers := inr None |}.

(** A second model with a name. *)
Definition other : CEModel :=
  {| name := "other";
     process_event inputs headers :=
       inr (Some {| data := PStr "other"; metrics := PNone |}) |}.

End Rejects.

(** ** Proofs *)

(** Runs a step of the monad without unfolding anything else. *)
Ltac run :=
  cbn [bind ret raise emit get put call outcome final effects app].

Ltac unfold_monad := unfold mbind, M_bind, mret, M_ret in *.

(** Finds an element in a list written with [::] and [++]. *)
Ltac in_list :=
  solve [ assumption
        | apply list_elem_of_here
        | apply list_elem_of_further; in_list
        | apply elem_of_app; left; in_list
        | apply elem_of_app; right; in_list ].

Section MonadLaws.
Context {S : Type}.

Lemma bind_ret_l {A B} (a : A) (k : A → M S B) (s : S) :
  bind (ret a) k s = k a s.
Proof. unfold bind. run. by destruct (k a s). Qed.

Lemma bind_assoc {A B C} (m : M S A) (k1 : A → M S B) (k2 : B → M S C)
    (s : S) :
  bind (bind m k1) k2 s = bind m (λ a, bind (k1 a) k2) s.
Proof.
  unfold bind. destruct (m s) as [[e|a] s1 tr1]; run; [done|].
  destruct (k1 a s1) as [[e|b] s2 tr2]; run; [done|].
  by rewrite app_assoc.
Qed.

Lemma bind_ext {A B} (m : M S A) (k k' : A → M S B) (s : S) :
  (∀ a s', k a s' = k' a s') → bind m k s = bind m k' s.
Proof. intros Hk. unfold bind. destruct (outcome (m s)); by rewrite ?Hk. Qed.



(** A step that returns runs the rest on what it returned, in the state it
    left, and the effects add up. *)
Lemma bind_run_inr {A B} (m : M S A) (k : A → M S B) (s s1 : S) a tr :
  m s = mkRun (inr a) s1 tr →
  bind m k s
  = mkRun (outcome (k a s1)) (final (k a s1)) (tr ++ effects (k a s1)).
Proof. intros Hm. unfold bind. by rewrite Hm. Qed.

(** A step that raises ends the run. *)
Lemma bind_run_inl {A B} (m : M S A) (k : A → M S B) (s s1 : S) e tr :
  m s = mkRun (inl e) s1 tr → bind m k s = mkRun (inl e) s1 tr.
Proof. intros Hm. unfold bind. by rewrite Hm. Qed.

End MonadLaws.

Section Proofs.
Context {R : Type}.
Context `{Json, Builtins, Marshaller, Network, Ambient, Protocols, Metrics R}.

Lemma length_append (s1 s2 : string) :
  String.length (s1 +:+ s2) = (String.length s1 + String.length s2)%nat.
Proof. induction s1 as [|c s1 IH]; simpl; [done|]. by rewrite IH. Qed.

Lemma length_hex_fixed width n :
  String.length (uuid.hex_fixed width n) = width.
Proof.
  revert n. induction width as [|w IH]; intros n; simpl; [done|].
  rewrite length_append, IH. simpl. lia.
Qed.

(** [UUID.hex] is a text of 32 characters. *)
Lemma length_hex n : String.length (uuid.hex n) = 32%nat.
Proof. apply length_hex_fixed. Qed.

Lemma hex_nonempty n : uuid.hex n ≠ "".
Proof. intros Heq. pose proof (length_hex n) as Hlen. by rewrite Heq in Hlen. Qed.

Lemma written_nil tr : (∀ chunk, WriteBody chunk ∉ tr) → written tr = [].
Proof.
  unfold written. induction tr as [|e tr IH]; intros Hno; [done|].
  destruct e; cbn [omap list_omap];
    try (apply IH; intros chunk Hin; apply (Hno chunk); by right).
  destruct (Hno chunk). by left.
Qed.

Lemma for_each_log_headers (hs : list (string * string)) (s : R) :
  for_each hs (λ '(k, v), emit (Log INFO (k +:+ ": " +:+ v +:+ CRLF))) s
  = mkRun (inr ()) s
      ((λ '(k, v), Log INFO (k +:+ ": " +:+ v +:+ CRLF)) <$> hs).
Proof.
  unfold logging_info.
  induction hs as [|[k v] hs IH]; simpl; [done|].
  unfold bind. simpl. by rewrite IH.
Qed.

(** The outcome of [sendCloudEvent]: what the destination, or the transport,
    or [raise_for_status] decides. *)
Lemma sendCloudEvent_run event url (s : R) :
  sendCloudEvent event url s
  = mkRun
      (match url with
       | None => inl (RequestsError requests.MissingSchema)
       | Some u =>
           match http_post u (ToRequest event).1 (ToRequest event).2 with
           | inl e => inl (RequestsError e)
           | inr response =>
               match requests.raise_for_status response with
               | inl e => inl (RequestsError e)
               | inr _ => inr ()
               end
           end
       end) s (delivery_effects event url).
Proof.
  unfold sendCloudEvent, delivery_effects, requests_post, logging_info.
  destruct (ToRequest event) as [hs b]. cbn [fst snd].
  unfold_monad. unfold bind. run.
  rewrite (for_each_log_headers hs s). run.
  destruct url as [u|]; run.
  - destruct (http_post u hs b) as [e|response]; run;
      [by rewrite <- ?app_assoc|].
    destruct (requests.raise_for_status response); run;
      by rewrite <- ?app_assoc, ?app_nil_r.
  - by rewrite <- ?app_assoc.
Qed.

Lemma elem_of_delivery_effects e event url :
  e ∈ delivery_effects event url →
  e = SendCloudEvent event url
  ∨ (∃ msg, e = Log INFO msg)
  ∨ e = RequestsPost url (ToRequest event).1 (ToRequest event).2.
Proof.
  unfold delivery_effects.
  rewrite !elem_of_app, !elem_of_cons, list_elem_of_fmap, elem_of_nil.
  intros [[?|[?|[]]]|[([k v] & ? & _)|[?|[?|[]]]]]; eauto.
Qed.

Lemma metrics_side_effect_run self m (s : R) :
  metrics_side_effect self m s
  = if is_None m then mkRun (inr ()) s []
    else if validate_metrics m
    then mkRun (inr ()) (update s m (handler_event_type self))
           [MetricsUpdate m (handler_event_type self)]
    else mkRun (inr ()) s
           [Log ERROR ("Metrics returned are invalid: " +:+ str m)].
Proof.
  unfold metrics_side_effect, logging_error. unfold_monad.
  destruct (is_None m); cbn [negb]; [done|].
  destruct (validate_metrics m); [|done].
  unfold bind. by run.
Qed.

Lemma relay_and_respond_run self event d (s : R) :
  relay_and_respond self event d s
  = if is_None d then mkRun (inr ()) s []
    else if decide (handler_reply_url self ≠ Some "") then
      let revent := reply_event self event d in
      let sent := sendCloudEvent revent (handler_reply_url self) s in
      match outcome sent with
      | inl e =>
          mkRun (inl e) s
            (Log DEBUG (dumps (v1.Properties revent)) :: effects sent)
      | inr _ =>
          mkRun (inr ()) s
            (Log DEBUG (dumps (v1.Properties revent))
             :: effects sent ++ [WriteBody (dumps d)])
      end
    else mkRun (inr ()) s [WriteBody (dumps d)].
Proof.
  unfold relay_and_respond, logging_debug. unfold_monad.
  destruct (is_None d); cbn [negb]; [done|].
  destruct (decide _) as [Hurl|Hurl]; [|unfold bind; by run].
  cbn zeta. unfold bind. run. rewrite sendCloudEvent_run. run.
  by destruct (match handler_reply_url self with None => _ | Some _ => _ end).
Qed.

(** No effect of lines 221-246 is a call of the model. *)
Lemma after_model_effects self event response (s : R) e :
  e ∈ effects (after_model self event response s) →
  is_ProcessEvent e = false.
Proof.
  unfold after_model. unfold_monad. unfold bind.
  rewrite metrics_side_effect_run.
  assert (∀ s' : R, e ∈ effects (relay_and_respond self event (data response) s')
                → is_ProcessEvent e = false) as Hrelay.
  { intros s'. rewrite relay_and_respond_run.
    destruct (is_None _); [by intros ?%elem_of_nil|].
    destruct (decide _); [|by intros ->%list_elem_of_singleton].
    cbn zeta. rewrite sendCloudEvent_run. run. unfold delivery_effects.
    destruct (match handler_reply_url self with None => _ | Some _ => _ end);
      run; rewrite ?elem_of_cons, ?elem_of_app, ?list_elem_of_fmap,
             ?elem_of_cons, ?elem_of_nil.
    - intros [->|[->|[->|[([k v] & -> & _)|[->|[->|[]]]]]]]; done.
    - intros [->|[->|[->|[[([k v] & -> & _)|[->|[->|[]]]]|[->|[]]]]]]; done. }
  destruct (is_None (metrics response)); run.
  - apply Hrelay.
  - destruct (validate_metrics _); run;
      rewrite elem_of_cons; intros [->|?]; eauto.
Qed.

(** [post] is [prepare], then the model, then lines 221-246. *)
Lemma post_prepare self request (s : R) :
  post self request s
  = bind (prepare (handler_protocol self) request)
      (λ x, bind (invoke_model self x.1.2 x.2)
              (λ response, after_model self x.1.1 response)) s.
Proof.
  unfold post, handle_payload, prepare, after_model. unfold_monad.
  rewrite bind_assoc. apply bind_ext. intros body s1.
  rewrite bind_assoc. apply bind_ext. intros request_handler s2.
  rewrite bind_assoc. apply bind_ext. intros _ s3.
  rewrite bind_assoc. apply bind_ext. intros [[y_pred y_true] task_type] s4.
  rewrite bind_assoc. apply bind_ext. intros event s5.
  rewrite bind_assoc. apply bind_ext. intros _ s6.
  rewrite bind_assoc. apply bind_ext. intros inputs s7.
  by rewrite bind_ret_l.
Qed.

(** [prepare] leaves the registry alone and logs at most the event; when it
    returns, it returns the event the marshaller read. *)
Lemma prepare_run protocol request (s : R) :
  (∃ e pre, before_model pre
            ∧ prepare protocol request s = mkRun (inl e) s pre)
  ∨ (∃ event inputs headers,
       FromRequest v1.new (request_headers request) (request_body request)
         = inr event
       ∧ prepare protocol request s
         = mkRun (inr (event, inputs, headers)) s
             [Log DEBUG (dumps (v1.Properties event))]).
Proof.
  unfold prepare, parse_body, logging_debug. unfold_monad.
  destruct (loads _) as [[msg|msg]|body]; unfold bind at 1; run;
    [left; eauto using before_model..|].
  destruct (get_request_handler _ _) as [e|rh]; unfold bind at 1; run;
    [left; eauto using before_model|].
  destruct (validate rh) as [e|[]]; unfold bind at 1; run;
    [left; eauto using before_model|].
  destruct (extract_request rh) as [e|[[y_pred y_true] task]];
    unfold bind at 1; run; [left; eauto using before_model|].
  destruct (FromRequest _ _ _) as [e|event] eqn:Hevent; unfold bind at 1; run;
    [left; eauto using before_model|].
  unfold bind at 1; run.
  destruct (convert_inputs _ _) as [e|inputs]; unfold bind at 1; run;
    [left; eauto using before_model|].
  right. by exists event, inputs, (context_of request task).
Qed.

(** Every request runs in one of the three ways. *)
Lemma post_runs self request (s : R) :
  post_run self request s (post self request s).
Proof.
  rewrite post_prepare.
  destruct (prepare_run (handler_protocol self) request s)
    as [(e & pre & Hpre & Hrun)|(event & inputs & headers & Hevent & Hrun)].
  { rewrite (bind_run_inl _ _ _ _ _ _ Hrun). by apply post_stops. }
  rewrite (bind_run_inr _ _ _ _ _ _ Hrun). cbn [fst snd].
  unfold invoke_model. unfold_monad.
  destruct (handler_model self) as [model|] eqn:Hmodel.
  2: { unfold bind. run. apply post_stops. apply before_inputs. }
  unfold bind at 1 2 3. run.
  destruct (process_event model inputs headers) as [e|[response|]] eqn:E; run.
  - eapply post_model_fails; [done|congruence].
  - by apply (post_model_answers self request s event model inputs headers
                response).
  - eapply post_model_fails; [done|congruence].
Qed.

(** A request whose model answered [response] ran lines 221-246 on that
    answer. *)
Lemma model_answered self request (s : R) model inputs headers response :
  handler_model self = Some model →
  ProcessEvent (name model) inputs headers ∈ effects (post self request s) →
  process_event model inputs headers = inr (Some response) →
  ∃ event,
    prepare (handler_protocol self) request s
      = mkRun (inr (event, inputs, headers)) s
          [Log DEBUG (dumps (v1.Properties event))]
    ∧ post self request s
      = let t := after_model self event response s in
        mkRun (outcome t) (final t)
          ([Log DEBUG (dumps (v1.Properties event));
            ProcessEvent (name model) inputs headers] ++ effects t).
Proof.
  intros Hmodel Hin Hresponse.
  pose proof (post_runs self request s) as Hrun.
  remember (post self request s) as r eqn:Hr.
  destruct Hrun as [e pre Hpre|event model' inputs' headers' e Hmodel' Hfails
                   |event model' inputs' headers' response' Hprepare _ Hmodel'
                      Hanswer];
    cbn [effects] in Hin.
  - destruct Hpre; [by apply elem_of_nil in Hin|].
    by apply list_elem_of_singleton in Hin.
  - rewrite Hmodel in Hmodel'. injection Hmodel' as <-.
    rewrite !elem_of_cons, elem_of_nil in Hin.
    destruct Hin as [Heq|[Heq|[]]]; [done|].
    injection Heq as -> ->. by destruct (Hfails response).
  - rewrite Hmodel in Hmodel'. injection Hmodel' as <-.
    cbn [app] in Hin. rewrite !elem_of_cons in Hin.
    destruct Hin as [Heq|[Heq|Hin]]; [done| |].
    + injection Heq as -> ->.
      rewrite Hresponse in Hanswer. injection Hanswer as <-. eauto.
    + by apply after_model_effects in Hin.
Qed.

(** A request on which the relay was entered had an answer with data, a
    reply URL other than the empty text, and entered it once, with the reply
    event of lines 230-243. *)
Lemma relay_entered self request (s : R) revent url :
  SendCloudEvent revent url ∈ effects (post self request s) →
  ∃ event model inputs headers response,
    FromRequest v1.new (request_headers request) (request_body request)
      = inr event
    ∧ handler_model self = Some model
    ∧ process_event model inputs headers = inr (Some response)
    ∧ is_None (data response) = false
    ∧ handler_reply_url self ≠ Some ""
    ∧ revent = reply_event self event (data response)
    ∧ url = handler_reply_url self
    ∧ post self request s
      = let t := after_model self event response s in
        mkRun (outcome t) (final t)
          ([Log DEBUG (dumps (v1.Properties event));
            ProcessEvent (name model) inputs headers] ++ effects t).
Proof.
  intros Hin.
  pose proof (post_runs self request s) as Hrun.
  remember (post self request s) as r eqn:Hr.
  destruct Hrun as [e pre Hpre|event model inputs headers e Hmodel Hfails
                   |event model inputs headers response _ Hevent Hmodel
                      Hanswer];
    cbn [effects] in Hin.
  - destruct Hpre; [by apply elem_of_nil in Hin|].
    by apply list_elem_of_singleton in Hin.
  - rewrite !elem_of_cons, elem_of_nil in Hin. by destruct Hin as [?|[?|[]]].
  - exists event, model, inputs, headers, response.
    cbn [app] in Hin. rewrite !elem_of_cons in Hin.
    destruct Hin as [?|[?|Hin]]; [done..|].
    revert Hin. unfold after_model. unfold_monad. unfold bind.
    rewrite metrics_side_effect_run.
    assert (∀ s' : R,
              SendCloudEvent revent url
                ∈ effects (relay_and_respond self event (data response) s')
              → is_None (data response) = false
                ∧ handler_reply_url self ≠ Some ""
                ∧ revent = reply_event self event (data response)
                ∧ url = handler_reply_url self) as Hrelay.
    { intros s'. rewrite relay_and_respond_run.
      destruct (is_None _); [by intros ?%elem_of_nil|].
      destruct (decide _) as [Hurl|]; [|by intros ?%list_elem_of_singleton].
      cbn zeta. rewrite sendCloudEvent_run. run. unfold delivery_effects.
      destruct (match handler_reply_url self with None => _ | Some _ => _ end);
        run; rewrite ?elem_of_cons, ?elem_of_app, ?list_elem_of_fmap,
               ?elem_of_cons, ?elem_of_nil.
      - intros [?|[Heq|[?|[([k v] & ? & _)|[?|[?|[]]]]]]]; try done.
        by injection Heq as -> ->.
      - intros [?|[Heq|[?|[[([k v] & ? & _)|[?|[?|[]]]]|[?|[]]]]]]; try done.
        by injection Heq as -> ->. }
    destruct (is_None (metrics response)); run.
    + intros (?&?&?&?)%Hrelay. by repeat split.
    + destruct (validate_metrics _); run; rewrite elem_of_cons;
        (intros [?|(?&?&?&?)%Hrelay]; [done|by repeat split]).
Qed.

(** C5: a body that [json.loads] does not parse never reaches the model, and
    is answered with 400 and the parser's message when the parser raised
    [JSONDecodeError]; bytes that are not text make the parser raise
    [UnicodeDecodeError], which line 183 does not catch, and are answered
    with 500. *)
Theorem post_on_unparsed_body self request (s : R) e :
  loads (request_body request) = inl e →
  let r := post self request s in
  outcome r
  = inl (match e with
         | JSONDecodeError msg =>
             HTTPError 400 ("Unrecognized request format: " +:+ msg)
         | UnicodeDecodeError _ => JsonError e
         end)
  ∧ status_of r
    = match e with JSONDecodeError _ => 400 | UnicodeDecodeError _ => 500 end
  ∧ effects r = []
  ∧ final r = s.
Proof.
  intros Hbody. unfold post, parse_body, status_of. unfold_monad.
  unfold bind at 1. rewrite Hbody. by destruct e.
Qed.

(** Lines 221-246 as two steps: the metrics step never raises. *)
Lemma after_model_run self event response (s : R) :
  after_model self event response s
  = let m := metrics_side_effect self (metrics response) s in
    let t := relay_and_respond self event (data response) (final m) in
    mkRun (outcome t) (final t) (effects m ++ effects t).
Proof.
  unfold after_model. unfold_monad. unfold bind.
  rewrite metrics_side_effect_run.
  destruct (is_None (metrics response)); [done|].
  by destruct (validate_metrics _).
Qed.

Lemma metrics_side_effect_quiet self m (s : R) e :
  e ∈ effects (metrics_side_effect self m s) →
  (∃ msg, e = Log ERROR msg) ∨ e = MetricsUpdate m (handler_event_type self).
Proof.
  rewrite metrics_side_effect_run.
  destruct (is_None m); [by intros ?%elem_of_nil|].
  destruct (validate_metrics m); intros ->%list_elem_of_singleton; eauto.
Qed.

(** C2: when the relay is entered and raises, the request ends with that
    exception, which tornado answers with 500, and [self.write] is never
    called. *)
Theorem failed_relay_aborts_response self request (s s0 : R) revent url e :
  SendCloudEvent revent url ∈ effects (post self request s) →
  outcome (sendCloudEvent revent url s0) = inl e →
  let r := post self request s in
  outcome r = inl e
  ∧ status_of r = 500
  ∧ (∀ chunk, WriteBody chunk ∉ effects r)
  ∧ written (effects r) = [].
Proof.
  intros Hin Hsend r.
  destruct (relay_entered _ _ _ _ _ Hin)
    as (event & model & inputs & headers & response
        & _ & _ & _ & Hdata & Hurl & -> & -> & Hpost).
  rewrite sendCloudEvent_run in Hsend. cbn [outcome] in Hsend.
  assert (outcome r = inl e
          ∧ ∀ chunk, WriteBody chunk ∉ effects r) as [Hout Hno].
  { subst r. rewrite Hpost. cbn zeta. rewrite after_model_run. cbn zeta.
    rewrite relay_and_respond_run, Hdata.
    destruct (decide _) as [_|]; [|done].
    cbn zeta. rewrite sendCloudEvent_run. cbn [outcome effects].
    rewrite Hsend. cbn [outcome effects]. split; [done|].
    intros chunk. cbn [app].
    rewrite !elem_of_cons, elem_of_app, elem_of_cons.
    intros [?|[?|[Hm|[?|Hd]]]]; try done.
    - by destruct (metrics_side_effect_quiet _ _ _ _ Hm) as [[? ?]|?].
    - by destruct (elem_of_delivery_effects _ _ _ Hd) as [?|[[? ?]|?]]. }
  repeat split; [done| |done|by apply written_nil].
  unfold status_of. rewrite Hout.
  destruct (handler_reply_url self) as [u|]; [|by injection Hsend as <-].
  destruct (http_post _ _ _); [by injection Hsend as <-|].
  destruct (requests.raise_for_status _); [by injection Hsend as <-|done].
Qed.

(** C4: the event that is relayed has the extension attributes of the event
    that came in, the time of the clock at the moment it is built, and the
    id of the event that came in; when that id is absent or empty, it has
    the 32 hexadecimal digits of a new UUID for id. *)
Theorem reply_event_attributes self request (s : R) revent url :
  SendCloudEvent revent url ∈ effects (post self request s) →
  ∃ event,
    FromRequest v1.new (request_headers request) (request_body request)
      = inr event
    ∧ v1.Extensions revent = v1.Extensions event
    ∧ v1.EventTime revent = Some utcnow_isoformat
    ∧ (((v1.EventID event = None ∨ v1.EventID event = Some "")
        ∧ v1.EventID revent = Some (uuid.hex uuid1)
        ∧ String.length (uuid.hex uuid1) = 32%nat
        ∧ uuid.hex uuid1 ≠ "")
       ∨ (∃ i, i ≠ "" ∧ v1.EventID event = Some i
               ∧ v1.EventID revent = Some i)).
Proof.
  intros Hin.
  destruct (relay_entered _ _ _ _ _ Hin)
    as (event & model & inputs & headers & response
        & Hevent & _ & _ & _ & _ & -> & _ & _).
  exists event. repeat split; [done|].
  unfold reply_event, v1.EventID. cbn [v1.ce__id v1.SetExtensions
    v1.SetEventTime v1.SetEventType v1.SetSource v1.SetEventID].
  destruct (v1.ce__id event) as [i|];
    [destruct (decide (i = "")) as [->|]|];
    eauto 10 using length_hex, hex_nonempty.
Qed.

(** C1: once the model has answered with data, the relay is entered exactly
    when the reply URL is not the empty text.  With the reply URL left at
    [None], the default of [CEServer.__init__], the relay is entered,
    [requests.post] is called on [None] and raises, and the request ends in
    that exception without a response body. *)
Theorem relay_entered_unless_empty_text self request (s : R)
    model inputs headers response :
  handler_model self = Some model →
  ProcessEvent (name model) inputs headers ∈ effects (post self request s) →
  process_event model inputs headers = inr (Some response) →
  is_None (data response) = false →
  let r := post self request s in
  ((∃ revent url, SendCloudEvent revent url ∈ effects r)
     ↔ handler_reply_url self ≠ Some "")
  ∧ (handler_reply_url self = None →
     (∃ revent hs b,
        SendCloudEvent revent None ∈ effects r
        ∧ RequestsPost None hs b ∈ effects r)
     ∧ outcome r = inl (RequestsError requests.MissingSchema)
     ∧ written (effects r) = []).
Proof.
  intros Hmodel Hin Hresponse Hdata r.
  destruct (model_answered _ _ _ _ _ _ _ Hmodel Hin Hresponse)
    as (event & _ & Hpost).
  split.
  - split.
    + intros (revent & url & Hsent).
      by destruct (relay_entered _ _ _ _ _ Hsent)
        as (? & ? & ? & ? & ? & _ & _ & _ & _ & ? & _).
    + intros Hurl. subst r. rewrite Hpost. cbn zeta.
      rewrite after_model_run. cbn zeta.
      rewrite relay_and_respond_run, Hdata.
      destruct (decide _) as [_|]; [|done].
      cbn zeta. rewrite sendCloudEvent_run. cbn [outcome effects].
      exists (reply_event self event (data response)), (handler_reply_url self).
      unfold delivery_effects.
      destruct (match handler_reply_url self with None => _ | Some _ => _ end);
        cbn [effects app]; in_list.
  - intros Hurl. subst r. rewrite Hpost. cbn zeta.
    rewrite after_model_run. cbn zeta.
    rewrite relay_and_respond_run, Hdata, Hurl.
    destruct (decide _) as [_|Hn]; [|by destruct Hn].
    cbn zeta. rewrite sendCloudEvent_run. cbn [outcome effects].
    split; [|split; [done|]].
    + eexists _, _, _. unfold delivery_effects. cbn [app].
      split; in_list.
    + apply written_nil. intros chunk. cbn [app].
      rewrite !elem_of_cons, elem_of_app, elem_of_cons.
      intros [?|[?|[Hm|[?|Hd]]]]; try done.
      * by destruct (metrics_side_effect_quiet _ _ _ _ Hm) as [[? ?]|?].
      * by destruct (elem_of_delivery_effects _ _ _ Hd) as [?|[[? ?]|?]].
Qed.

(** The relay and the response leave the registry alone. *)
Lemma relay_and_respond_final self event d (s : R) :
  final (relay_and_respond self event d s) = s.
Proof.
  rewrite relay_and_respond_run.
  destruct (is_None d); [done|].
  destruct (decide (handler_reply_url self ≠ Some "")); [|done].
  cbn zeta.
  by destruct (outcome (sendCloudEvent _ (handler_reply_url self) s)).
Qed.

Lemma elem_of_relay_and_respond self event d (s : R) e :
  e ∈ effects (relay_and_respond self event d s) →
  (∃ msg, e = Log DEBUG msg)
  ∨ e ∈ delivery_effects (reply_event self event d) (handler_reply_url self)
  ∨ e = WriteBody (dumps d).
Proof.
  rewrite relay_and_respond_run.
  destruct (is_None d); [by intros ?%elem_of_nil|].
  destruct (decide (handler_reply_url self ≠ Some ""));
    [|intros ->%list_elem_of_singleton; eauto].
  cbn zeta. rewrite sendCloudEvent_run. cbn [outcome effects].
  destruct (match handler_reply_url self with None => _ | Some _ => _ end);
    cbn [effects]; rewrite ?elem_of_cons, ?elem_of_app, ?elem_of_cons,
                     ?elem_of_nil; intros Hin;
    repeat match goal with
           | H : _ ∨ _ |- _ => destruct H
           | H : False |- _ => destruct H
           end;
    subst; eauto.
Qed.

(** C3: when the metrics of the answer are present and do not validate, the
    request logs them as invalid, never calls [update], leaves the registry
    as it found it, and otherwise runs as the same request does when the
    model reports no metrics: same outcome, same effects around the line of
    the log. *)
Theorem invalid_metrics_are_dropped self request (s : R)
    model inputs headers response :
  handler_model self = Some model →
  ProcessEvent (name model) inputs headers ∈ effects (post self request s) →
  process_event model inputs headers = inr (Some response) →
  is_None (metrics response) = false →
  validate_metrics (metrics response) = false →
  let r := post self request s in
  let r' := post (with_model self (without_metrics model)) request s in
  let line := Log ERROR ("Metrics returned are invalid: "
                         +:+ str (metrics response)) in
  line ∈ effects r
  ∧ (∀ m t, MetricsUpdate m t ∉ effects r)
  ∧ final r = s
  ∧ outcome r = outcome r'
  ∧ ∃ before after,
      effects r' = before ++ after
      ∧ effects r = before ++ [line] ++ after.
Proof.
  intros Hmodel Hin Hresponse Hsome Hinvalid r r' line.
  destruct (model_answered _ _ _ _ _ _ _ Hmodel Hin Hresponse)
    as (event & Hprepare & Hpost).
  set (t := relay_and_respond self event (data response) s).
  assert (r = mkRun (outcome t) (final t)
                ([Log DEBUG (dumps (v1.Properties event));
                  ProcessEvent (name model) inputs headers]
                 ++ [line] ++ effects t)) as Hr.
  { subst r. rewrite Hpost. cbn zeta. rewrite after_model_run. cbn zeta.
    rewrite metrics_side_effect_run, Hsome, Hinvalid. run. reflexivity. }
  assert (r' = mkRun (outcome t) (final t)
                 ([Log DEBUG (dumps (v1.Properties event));
                   ProcessEvent (name model) inputs headers]
                  ++ effects t)) as Hr'.
  { subst r'. rewrite post_prepare.
    cbn [with_model handler_protocol].
    rewrite (bind_run_inr _ _ _ _ _ _ Hprepare). cbn [fst snd].
    unfold invoke_model at 1 2 3. cbn [with_model handler_model].
    unfold_monad. unfold bind at 2 3 5 6 8 9. run.
    cbn [without_metrics process_event name]. rewrite Hresponse. run.
    rewrite !after_model_run. cbn zeta.
    rewrite !metrics_side_effect_run. cbn [metrics data is_None final effects].
    unfold relay_and_respond, reply_event.
    by cbn [with_model handler_reply_url handler_event_source
            handler_event_type app]. }
  assert (final t = s) as Ht by apply relay_and_respond_final.
  assert (∀ m ty, MetricsUpdate m ty ∉ effects t) as Hquiet.
  { intros m ty [[? ?]|[Hd|?]]%elem_of_relay_and_respond; [done| |done].
    by apply elem_of_delivery_effects in Hd as [?|[[? ?]|?]]. }
  rewrite Hr, Hr'. cbn [outcome final effects]. repeat split.
  - in_list.
  - intros m ty. cbn [app]. rewrite !elem_of_cons.
    intros [?|[?|[?|?]]]; try done. by apply (Hquiet m ty).
  - done.
  - by exists [Log DEBUG (dumps (v1.Properties event));
               ProcessEvent (name model) inputs headers], (effects t).
Qed.

(** C10: when the answer of the model has no data, the request returns
    without entering the relay, without a call of [requests.post] and
    without a call of [self.write], whatever the reply URL is; after the
    call of the model it does what the metrics step does and nothing
    else. *)
Theorem absent_data_no_relay_no_body self request (s : R)
    model inputs headers response :
  handler_model self = Some model →
  ProcessEvent (name model) inputs headers ∈ effects (post self request s) →
  process_event model inputs headers = inr (Some response) →
  is_None (data response) = true →
  let r := post self request s in
  let m := metrics_side_effect self (metrics response) s in
  outcome r = inr ()
  ∧ status_of r = 200
  ∧ written (effects r) = []
  ∧ (∀ e, e ∈ effects r → relays_or_responds e = false)
  ∧ final r = final m
  ∧ ∃ event,
      effects r
      = [Log DEBUG (dumps (v1.Properties event));
         ProcessEvent (name model) inputs headers] ++ effects m.
Proof.
  intros Hmodel Hin Hresponse Hdata r m.
  destruct (model_answered _ _ _ _ _ _ _ Hmodel Hin Hresponse)
    as (event & _ & Hpost).
  assert (r = mkRun (inr ()) (final m)
                ([Log DEBUG (dumps (v1.Properties event));
                  ProcessEvent (name model) inputs headers] ++ effects m))
    as ->.
  { subst r m. rewrite Hpost. cbn zeta. rewrite after_model_run. cbn zeta.
    rewrite relay_and_respond_run, Hdata. cbn [outcome final effects].
    by rewrite app_nil_r. }
  cbn [outcome final effects].
  assert (∀ e, e ∈ [Log DEBUG (dumps (v1.Properties event));
                    ProcessEvent (name model) inputs headers] ++ effects m
               → relays_or_responds e = false) as Hquiet.
  { intros e. cbn [app]. rewrite !elem_of_cons.
    intros [->|[->|[[? ->]| ->]%metrics_side_effect_quiet]]; done. }
  repeat split; [|done|by exists event].
  apply written_nil. intros chunk Hchunk. by apply Hquiet in Hchunk.
Qed.

Lemma posts_delivery_effects event url :
  posts (delivery_effects event url)
  = [(url, (ToRequest event).1, (ToRequest event).2)].
Proof.
  unfold posts, delivery_effects. rewrite !omap_app.
  assert (∀ hs : list (string * string),
            omap (λ e, match e with
                       | RequestsPost url headers body =>
                           Some (url, headers, body)
                       | _ => None
                       end)
              ((λ '(k, v), Log INFO (k +:+ ": " +:+ v +:+ CRLF)) <$> hs)
            = []) as ->; [|done].
  intros hs. by induction hs as [|[k v] hs IH].
Qed.

(** C6: [sendCloudEvent] calls [requests.post] once, on the marshalled
    event, and leaves the registry alone.  It raises the exception of the
    call when the call raises, and an [HTTPError] when the response that the
    call returns, the last one of the exchange when the library followed
    redirects, has a status in 400..599; for a returned response of any other
    status, 304 as much as 200, it returns. *)
Theorem sendCloudEvent_posts_once event u (s : R) :
  let r := sendCloudEvent event (Some u) s in
  let hs := (ToRequest event).1 in
  let b := (ToRequest event).2 in
  posts (effects r) = [(Some u, hs, b)]
  ∧ final r = s
  ∧ match http_post u hs b with
    | inl e => outcome r = inl (RequestsError e)
    | inr response =>
        if bool_decide (400 ≤ requests.status_code response < 600)
        then ∃ msg, outcome r = inl (RequestsError (requests.HTTPError msg))
        else outcome r = inr ()
    end.
Proof.
  intros r hs b. subst r. rewrite sendCloudEvent_run.
  cbn [outcome final effects]. rewrite posts_delivery_effects.
  repeat split. fold hs b.
  destruct (http_post u hs b) as [e|response]; [done|].
  unfold requests.raise_for_status.
  repeat case_bool_decide; eauto; lia.
Qed.

Lemma register_model_run model self :
  register_model model self
  = if decide (name model = "") then
      mkRun (inl (Exception
                    "Failed to register model, model.name must be provided."))
        self []
    else
      mkRun (inr ())
        {| registered_model := Some model;
           http_port := http_port self;
           protocol := protocol self;
           reply_url := reply_url self;
           _http_server := _http_server self;
           event_type := event_type self;
           event_source := event_source self |}
        [Log INFO ("Registering model:" +:+ name model)].
Proof.
  unfold register_model. destruct (decide (name model = "")); [reflexivity|].
  unfold_monad. unfold bind. run. reflexivity.
Qed.

Lemma start_run model self :
  start model self
  = let r := register_model model self in
    match outcome r with
    | inl e => mkRun (inl e) (final r) (effects r)
    | inr _ =>
        mkRun (inr ())
          {| registered_model := registered_model (final r);
             http_port := http_port (final r);
             protocol := protocol (final r);
             reply_url := reply_url (final r);
             _http_server := Some (create_application (final r));
             event_type := event_type (final r);
             event_source := event_source (final r) |}
          (effects r
           ++ [Log INFO ("Listening on port " +:+ pretty (http_port (final r)));
               Listen (http_port (final r)) 1])
    end.
Proof.
  unfold start. unfold_monad. cbn zeta. unfold bind at 1.
  destruct (outcome (register_model model self)); [reflexivity|].
  unfold bind. run. reflexivity.
Qed.

(** C7: [get_request_handler] returns the handler of the common protocol for
    [common_http] and for no other identifier, raises the unknown-protocol
    exception for every other identifier and for none else, and a handler
    that is configured with [common_http] runs every request as the pipeline
    without the failure branch does.  Nothing looks at the protocol before a
    request does: [__init__] stores the protocol it is given, whatever it is,
    [start] goes to listen with it, and the handler of a server that was
    given another protocol raises the exception on every request whose body
    parses, before anything else happens. *)
Theorem protocol_resolution self request (s : R) p body
    (model : CEModel) type source port url :
  handler_protocol self = common_http →
  let constructed := CEServer_init p type source port url in
  let started := start model constructed in
  (get_request_handler p body = inr (CommonRequestHandler body)
     ↔ p = common_http)
  ∧ (get_request_handler p body
       = inl (Exception ("Unknown protocol " +:+ str_protocol p))
     ↔ p ≠ common_http)
  ∧ post self request s
    = (body ← parse_body request ;
       handle_payload self request (CommonRequestHandler body)) s
  ∧ protocol constructed = p
  ∧ handler_protocol (route_events (create_application constructed)) = p
  ∧ (name model ≠ "" →
     Listen (http_port constructed) 1 ∈ effects started
     ∧ ∃ app,
         _http_server (final started) = Some app
         ∧ handler_protocol (route_events app) = p
         ∧ handler_model (route_events app) = Some model
         ∧ (p ≠ common_http →
            loads (request_body request) = inr body →
            post (route_events app) request s
            = mkRun (inl (Exception
                            ("Unknown protocol " +:+ str_protocol p))) s []
            ∧ status_of (post (route_events app) request s) = 500)).
Proof.
  intros Hp constructed started.
  split_and!; [| | |reflexivity|reflexivity|].
  - unfold get_request_handler.
    destruct (decide (p = common_http)); naive_solver.
  - unfold get_request_handler.
    destruct (decide (p = common_http)); naive_solver.
  - unfold post, get_request_handler. by rewrite Hp.
  - intros Hname. subst started constructed.
    rewrite start_run. cbn zeta. rewrite register_model_run.
    destruct (decide (name model = "")); [done|].
    cbn [outcome final effects registered_model http_port CEServer_init app].
    split; [in_list|].
    eexists. split; [reflexivity|].
    cbn [create_application route_events handler_protocol handler_model
         registered_model protocol CEServer_init].
    split_and!; [reflexivity..|].
    intros Hother Hbody.
    assert (∀ self',
              handler_protocol self' = p →
              post self' request s
              = mkRun (inl (Exception
                              ("Unknown protocol " +:+ str_protocol p))) s [])
      as Hpost.
    { intros self' <-. unfold post, parse_body, get_request_handler.
      rewrite Hbody.
      destruct (decide (handler_protocol self' = common_http)); [done|].
      unfold_monad. unfold bind, call. run. reflexivity. }
    rewrite Hpost by reflexivity. done.
Qed.

(** C8: [register_model] raises exactly when the name of the model is empty,
    and then nothing is registered and [start] stops there, before a server
    exists; otherwise the model is registered, and [start] builds the
    application around the registered model before it listens. *)
Theorem registration_precedes_serving (model : CEModel) (self : CEServer)
    p type source port url :
  let r := register_model model self in
  let r' := start model self in
  let fresh := CEServer_init p type source port url in
  ((∃ e, outcome r = inl e) ↔ name model = "")
  ∧ ((name model = ""
      ∧ outcome r
        = inl (Exception
                 "Failed to register model, model.name must be provided.")
      ∧ final r = self
      ∧ registered_model (final (register_model model fresh)) = None
      ∧ outcome r' = outcome r
      ∧ final r' = self
      ∧ effects r' = [])
     ∨ (name model ≠ ""
        ∧ outcome r = inr ()
        ∧ registered_model (final r) = Some model
        ∧ outcome r' = inr ()
        ∧ registered_model (final r') = Some model
        ∧ _http_server (final r') = Some (create_application (final r))
        ∧ handler_model (route_events (create_application (final r)))
          = Some model
        ∧ effects r'
          = [Log INFO ("Registering model:" +:+ name model);
             Log INFO ("Listening on port " +:+ pretty (http_port self));
             Listen (http_port self) 1])).
Proof.
  intros r r' fresh. subst r r' fresh.
  rewrite start_run. cbn zeta. rewrite !register_model_run.
  destruct (decide (name model = "")) as [Hname|Hname];
    cbn [outcome final effects registered_model http_port app CEServer_init].
  - split; [split; [done|intros _; eexists; reflexivity]|].
    left. repeat split; exact Hname.
  - split; [split; [intros [e He]; discriminate He|done]|].
    right. repeat split; exact Hname.
Qed.



End Proofs.

(** ** Examples: the statements above on the requests of the fixture *)

Section Examples.
Import Fixture.

(** C1 at its failing input: a handler whose reply URL was left at the
    default of [CEServer.__init__], a payload the model answers with data.
    The relay is entered, the POST to [None] raises, nothing is written. *)
Lemma unset_reply_url_example :
  let self := handler counting None in
  let r := post self (binary_request "" body_equal) registry0 in
  ((∃ revent url, SendCloudEvent revent url ∈ effects r)
     ↔ handler_reply_url self ≠ Some "")
  ∧ (handler_reply_url self = None →
     (∃ revent hs b,
        SendCloudEvent revent None ∈ effects r
        ∧ RequestsPost None hs b ∈ effects r)
     ∧ outcome r = inl (RequestsError requests.MissingSchema)
     ∧ written (effects r) = []).
Proof.
  apply (relay_entered_unless_empty_text
           (R := PrometheusMetrics.BdilabMetrics)
           (handler counting None) (binary_request "" body_equal) registry0
           counting (inputs_of [1; 0; 1] [1; 1; 1])
           (context_of (binary_request "" body_equal) (PStr "classification"))
           {| data := sizes 3 3;
              metrics := PList [metric "events_total" "counter" (PInt 1)] |}).
  - reflexivity.
  - vm_compute. in_list.
  - reflexivity.
  - reflexivity.
Defined.

(** C2 on a destination that refuses the connection. *)
Lemma unreachable_destination_example :
  let self := handler counting (Some sink_unreachable) in
  let r := post self (binary_request "e-1" body_equal) registry0 in
  outcome r
  = inl (RequestsError
           (mkRequestException "ConnectionError" "Connection refused"))
  ∧ status_of r = 500
  ∧ (∀ chunk, WriteBody chunk ∉ effects r)
  ∧ written (effects r) = [].
Proof.
  apply (failed_relay_aborts_response
           (R := PrometheusMetrics.BdilabMetrics)
           (handler counting (Some sink_unreachable))
           (binary_request "e-1" body_equal) registry0 registry0
           (reply_event (handler counting (Some sink_unreachable))
              (inbound "e-1" [1; 0; 1] [1; 1; 1]) (sizes 3 3))
           (Some sink_unreachable)).
  - vm_compute. in_list.
  - reflexivity.
Defined.

(** C3 on a model whose metric has a text for value: the batch fails the
    validation of the spec, and the request is answered as usual. *)
Lemma invalid_metrics_example :
  let self := handler miscounting (Some "") in
  let request := binary_request "e-1" body_equal in
  let r := post self request registry0 in
  let r' := post (with_model self (without_metrics miscounting)) request
              registry0 in
  let line :=
    Log ERROR
      ("Metrics returned are invalid: "
       +:+ str (PList [metric "events_total" "counter" (PStr "one")])) in
  line ∈ effects r
  ∧ (∀ m t, MetricsUpdate m t ∉ effects r)
  ∧ final r = registry0
  ∧ outcome r = outcome r'
  ∧ ∃ before after,
      effects r' = before ++ after ∧ effects r = before ++ [line] ++ after.
Proof.
  apply (invalid_metrics_are_dropped
           (R := PrometheusMetrics.BdilabMetrics)
           (handler miscounting (Some "")) (binary_request "e-1" body_equal)
           registry0 miscounting (inputs_of [1; 0; 1] [1; 1; 1])
           (context_of (binary_request "e-1" body_equal)
              (PStr "classification"))
           {| data := sizes 3 3;
              metrics :=
                PList [metric "events_total" "counter" (PStr "one")] |}).
  - reflexivity.
  - vm_compute. in_list.
  - reflexivity.
  - reflexivity.
  - reflexivity.
Defined.

(** C4 on the round trip of the spec: extension attributes a=1 and b=2, an
    empty id. *)
Lemma round_trip_example :
  let self := handler counting (Some sink_ok) in
  let request := binary_request "" body_equal in
  let revent := reply_event self (inbound "" [1; 0; 1] [1; 1; 1])
                  (sizes 3 3) in
  ∃ event,
    FromRequest v1.new (request_headers request) (request_body request)
      = inr event
    ∧ v1.Extensions revent = v1.Extensions event
    ∧ v1.EventTime revent = Some utcnow_isoformat
    ∧ (((v1.EventID event = None ∨ v1.EventID event = Some "")
        ∧ v1.EventID revent = Some (uuid.hex uuid1)
        ∧ String.length (uuid.hex uuid1) = 32%nat
        ∧ uuid.hex uuid1 ≠ "")
       ∨ (∃ i, i ≠ "" ∧ v1.EventID event = Some i
               ∧ v1.EventID revent = Some i)).
Proof.
  apply (reply_event_attributes
           (R := PrometheusMetrics.BdilabMetrics)
           (handler counting (Some sink_ok)) (binary_request "" body_equal)
           registry0
           (reply_event (handler counting (Some sink_ok))
              (inbound "" [1; 0; 1] [1; 1; 1]) (sizes 3 3))
           (Some sink_ok)).
  vm_compute. in_list.
Defined.

(** C5 at its failing input: the one byte 0xff. *)
Lemma undecodable_body_example :
  let e := UnicodeDecodeError
             "'utf-8' codec can't decode byte 0xff in position 0: invalid start byte" in
  let r := post (handler counting None) (binary_request "e-1" body_not_utf8)
             registry0 in
  outcome r = inl (JsonError e)
  ∧ status_of r = 500
  ∧ effects r = []
  ∧ final r = registry0.
Proof.
  apply (post_on_unparsed_body
           (R := PrometheusMetrics.BdilabMetrics)
           (handler counting None) (binary_request "e-1" body_not_utf8)
           registry0
           (UnicodeDecodeError
              "'utf-8' codec can't decode byte 0xff in position 0: invalid start byte")).
  reflexivity.
Defined.

(** C6 refuted on a destination that answers 304: the relay returns. *)
Lemma not_modified_is_delivered :
  let event := reply_event (handler counting (Some sink_not_modified))
                 (inbound "e-1" [1; 0; 1] [1; 1; 1]) (sizes 3 3) in
  let r := sendCloudEvent event (Some sink_not_modified) registry0 in
  http_post sink_not_modified (ToRequest event).1 (ToRequest event).2
  = inr (requests.mkResponse 304 "Not Modified" sink_not_modified)
  ∧ outcome r = inr ()
  ∧ posts (effects r)
    = [(Some sink_not_modified, (ToRequest event).1, (ToRequest event).2)].
Proof. vm_compute. by repeat split. Qed.

(** C7 on a protocol that is not registered and on a handler of the common
    protocol. *)
Lemma protocol_resolution_example :
  let self := handler counting None in
  let request := binary_request "e-1" body_equal in
  let p := unregistered "Protocol.grpc" in
  let body := payload [1; 0; 1] [1; 1; 1] in
  let constructed := CEServer_init p "monitor.reply" "monitor" None None in
  let started := start counting constructed in
  (get_request_handler p body = inr (CommonRequestHandler body)
     ↔ p = common_http)
  ∧ (get_request_handler p body
       = inl (Exception ("Unknown protocol " +:+ str_protocol p))
     ↔ p ≠ common_http)
  ∧ post self request registry0
    = (body ← parse_body request ;
       handle_payload self request (CommonRequestHandler body)) registry0
  ∧ protocol constructed = p
  ∧ handler_protocol (route_events (create_application constructed)) = p
  ∧ (name counting ≠ "" →
     Listen (http_port constructed) 1 ∈ effects started
     ∧ ∃ app,
         _http_server (final started) = Some app
         ∧ handler_protocol (route_events app) = p
         ∧ handler_model (route_events app) = Some counting
         ∧ (p ≠ common_http →
            loads (request_body request) = inr body →
            post (route_events app) request registry0
            = mkRun (inl (Exception
                            ("Unknown protocol " +:+ str_protocol p)))
                registry0 []
            ∧ status_of (post (route_events app) request registry0) = 500)).
Proof.
  apply (protocol_resolution
           (R := PrometheusMetrics.BdilabMetrics)
           (handler counting None) (binary_request "e-1" body_equal)
           registry0 (unregistered "Protocol.grpc")
           (payload [1; 0; 1] [1; 1; 1]) counting
           "monitor.reply" "monitor" None None).
  reflexivity.
Defined.

(** C7 refuted on a server that is given a protocol without a request
    handler: it is constructed, a model is registered on it and it goes to
    listen as any server does, and the exception is raised when a request
    comes in, which is answered with 500. *)
Lemma unknown_protocol_is_met_by_the_request :
  let p := unregistered "Protocol.grpc" in
  let constructed := CEServer_init p "monitor.reply" "monitor" None None in
  let started := start counting constructed in
  let served := mkEventHandler p (Some counting) None "monitor.reply"
                  "monitor" in
  let request := binary_request "e-1" body_equal in
  protocol constructed = p
  ∧ effects started
    = [Log INFO "Registering model:counting";
       Log INFO "Listening on port 8080"; Listen 8080 1]
  ∧ route_events <$> _http_server (final started) = Some served
  ∧ loads (request_body request) = inr (payload [1; 0; 1] [1; 1; 1])
  ∧ post served request registry0
    = mkRun (inl (Exception "Unknown protocol Protocol.grpc")) registry0 []
  ∧ status_of (post served request registry0) = 500.
Proof. cbn zeta. split_and!; vm_compute; reflexivity. Qed.

(** C8 on a model without a name and on a model with one, each on a server
    as it was constructed. *)
Lemma registration_example :
  let r := start nameless (server None) in
  let r' := start counting (server None) in
  (∃ e, outcome r = inl e)
  ∧ registered_model (final r) = None
  ∧ _http_server (final r) = None
  ∧ effects r = []
  ∧ outcome r' = inr ()
  ∧ handler_model (handler counting None) = Some counting
  ∧ effects r'
    = [Log INFO "Registering model:counting";
       Log INFO "Listening on port 8080"; Listen 8080 1].
Proof.
  pose proof (registration_precedes_serving nameless (server None)
                common_http "monitor.reply" "monitor" None None)
    as [[_ Hraises] _].
  split; [by apply Hraises|]. vm_compute. by repeat split.
Defined.



(** C10 on a model that reports a metric and answers nothing, with a
    destination configured. *)
Lemma absent_data_example :
  let self := handler silent (Some sink_ok) in
  let request := binary_request "e-1" body_equal in
  let r := post self request registry0 in
  let m := metrics_side_effect self
             (PList [metric "events_total" "counter" (PInt 1)]) registry0 in
  outcome r = inr ()
  ∧ status_of r = 200
  ∧ written (effects r) = []
  ∧ (∀ e, e ∈ effects r → relays_or_responds e = false)
  ∧ final r = final m
  ∧ ∃ event,
      effects r
      = [Log DEBUG (dumps (v1.Properties event));
         ProcessEvent (name silent) (inputs_of [1; 0; 1] [1; 1; 1])
           (context_of request (PStr "classification"))] ++ effects m.
Proof.
  apply (absent_data_no_relay_no_body
           (R := PrometheusMetrics.BdilabMetrics)
           (handler silent (Some sink_ok)) (binary_request "e-1" body_equal)
           registry0 silent (inputs_of [1; 0; 1] [1; 1; 1])
           (context_of (binary_request "e-1" body_equal)
              (PStr "classification"))
           {| data := PNone;
              metrics :=
                PList [metric "events_total" "counter" (PInt 1)] |}).
  - reflexivity.
  - vm_compute. in_list.
  - reflexivity.
  - reflexivity.
Defined.

End Examples.

(** ** The rest of the file: what every request does *)

Section Coverage.
Context {R : Type}.
Context `{Json, Builtins, Marshaller, Network, Ambient, Protocols, Metrics R}.

(** [prepare], stage by stage. *)
Lemma prepare_eq protocol request (s : R) :
  prepare protocol request s
  = match loads (request_body request) with
    | inl (JSONDecodeError msg) =>
        mkRun (inl (HTTPError BAD_REQUEST
                      ("Unrecognized request format: " +:+ msg))) s []
    | inl e => mkRun (inl (JsonError e)) s []
    | inr body =>
        match get_request_handler protocol body with
        | inl e => mkRun (inl e) s []
        | inr rh =>
            match validate rh with
            | inl e => mkRun (inl e) s []
            | inr _ =>
                match extract_request rh with
                | inl e => mkRun (inl e) s []
                | inr (y_pred, y_true, task_type) =>
                    match FromRequest v1.new (request_headers request)
                            (request_body request) with
                    | inl msg =>
                        mkRun (inl (Raised "cloudevents.exceptions" msg)) s []
                    | inr event =>
                        let d := Log DEBUG (dumps (v1.Properties event)) in
                        match convert_inputs y_true y_pred with
                        | inl e => mkRun (inl e) s [d]
                        | inr inputs =>
                            mkRun
                              (inr (event, inputs,
                                    context_of request task_type)) s [d]
                        end
                    end
                end
            end
        end
    end.
Proof.
  unfold prepare, parse_body, logging_debug. unfold_monad.
  destruct (loads _) as [[msg|msg]|body]; unfold bind at 1; run;
    [reflexivity..|].
  destruct (get_request_handler _ _) as [e|rh]; unfold bind at 1; run;
    [reflexivity|].
  destruct (validate rh) as [e|[]]; unfold bind at 1; run; [reflexivity|].
  destruct (extract_request rh) as [e|[[y_pred y_true] task]];
    unfold bind at 1; run; [reflexivity|].
  destruct (FromRequest _ _ _) as [e|event]; unfold bind at 1; run;
    [reflexivity|].
  unfold bind at 1; run.
  destruct (convert_inputs _ _) as [e|inputs]; unfold bind at 1; run;
    reflexivity.
Qed.

(** A request on which [prepare] raises ends there. *)
Lemma post_stops_with_prepare self request (s s' : R) e tr :
  prepare (handler_protocol self) request s = mkRun (inl e) s' tr →
  post self request s = mkRun (inl e) s' tr.
Proof. intros Hp. rewrite post_prepare. by apply bind_run_inl. Qed.

(** The call of the model and what follows, once [prepare] has returned. *)
Lemma post_after_prepare self request (s : R) event inputs headers d :
  prepare (handler_protocol self) request s
    = mkRun (inr (event, inputs, headers)) s [d] →
  post self request s
  = match handler_model self with
    | None =>
        mkRun (inl (AttributeError
                      "'NoneType' object has no attribute 'process_event'"))
          s [d]
    | Some model =>
        let called := ProcessEvent (name model) inputs headers in
        match process_event model inputs headers with
        | inl e => mkRun (inl e) s [d; called]
        | inr None =>
            mkRun (inl (AttributeError
                          "'NoneType' object has no attribute 'metrics'"))
              s [d; called]
        | inr (Some response) =>
            let t := after_model self event response s in
            mkRun (outcome t) (final t) ([d; called] ++ effects t)
        end
    end.
Proof.
  intros Hp. rewrite post_prepare, (bind_run_inr _ _ _ _ _ _ Hp).
  cbn [fst snd]. unfold invoke_model. unfold_monad.
  destruct (handler_model self) as [model|].
  2: { unfold bind. run. reflexivity. }
  unfold bind at 1 2 3. run.
  destruct (process_event model inputs headers) as [e|[response|]]; run;
    reflexivity.
Qed.

(** Lines 221-246 in full. *)
Lemma after_model_eq self event response (s : R) :
  after_model self event response s
  = let m := metrics_side_effect self (metrics response) s in
    let d := data response in
    if is_None d then mkRun (inr ()) (final m) (effects m)
    else if decide (handler_reply_url self ≠ Some "") then
      let revent := reply_event self event d in
      let logged := Log DEBUG (dumps (v1.Properties revent)) in
      let sent := delivery_effects revent (handler_reply_url self) in
      match outcome (sendCloudEvent revent (handler_reply_url self) s) with
      | inl e => mkRun (inl e) (final m) (effects m ++ logged :: sent)
      | inr _ =>
          mkRun (inr ()) (final m)
            (effects m ++ logged :: sent ++ [WriteBody (dumps d)])
      end
    else mkRun (inr ()) (final m) (effects m ++ [WriteBody (dumps d)]).
Proof.
  rewrite after_model_run. cbn zeta. rewrite relay_and_respond_run.
  destruct (is_None (data response)); [by rewrite app_nil_r|].
  destruct (decide (handler_reply_url self ≠ Some "")); [|reflexivity].
  cbn zeta. rewrite !sendCloudEvent_run. cbn [outcome effects].
  by destruct (match handler_reply_url self with None => _ | Some _ => _ end).
Qed.

Lemma count_app p tr1 tr2 :
  count p (tr1 ++ tr2) = (count p tr1 + count p tr2)%nat.
Proof. unfold count. by rewrite List.filter_app, length_app. Qed.

Lemma count_delivery_effects p event url :
  (∀ level msg, p (Log level msg) = false) →
  count p (delivery_effects event url)
  = ((if p (SendCloudEvent event url) then 1 else 0)
     + (if p (RequestsPost url (ToRequest event).1 (ToRequest event).2)
        then 1 else 0))%nat.
Proof.
  intros Hlog. unfold delivery_effects. rewrite !count_app.
  assert (∀ hs : list (string * string),
            count p ((λ '(k, v), Log INFO (k +:+ ": " +:+ v +:+ CRLF)) <$> hs)
            = 0%nat) as ->.
  { induction hs as [|[k v] hs IH]; [done|].
    unfold count in *. cbn [fmap list_fmap List.filter]. by rewrite Hlog. }
  unfold count. cbn [List.filter]. rewrite !Hlog.
  destruct (p (SendCloudEvent _ _)), (p (RequestsPost _ _ _)); reflexivity.
Qed.

Lemma count_metrics_side_effect p self m (s : R) :
  (∀ level msg, p (Log level msg) = false) →
  count p (effects (metrics_side_effect self m s))
  = if negb (is_None m) && validate_metrics m
         && p (MetricsUpdate m (handler_event_type self))
    then 1%nat else 0%nat.
Proof.
  intros Hlog. rewrite metrics_side_effect_run.
  destruct (is_None m); [done|]. destruct (validate_metrics m);
    unfold count; cbn [effects List.filter negb andb]; [|by rewrite Hlog].
  by destruct (p (MetricsUpdate _ _)).
Qed.

(** The effects of a kind [p] that lines 221-246 can have: one update of the
    metrics, one entry of the relay, one POST, one write. *)
Lemma count_after_model p self event response (s : R) :
  (∀ level msg, p (Log level msg) = false) →
  (count p (effects (after_model self event response s))
   ≤ (if p (MetricsUpdate (metrics response) (handler_event_type self))
      then 1 else 0)
     + (if p (SendCloudEvent (reply_event self event (data response))
                (handler_reply_url self)) then 1 else 0)
     + (if p (RequestsPost (handler_reply_url self)
                (ToRequest (reply_event self event (data response))).1
                (ToRequest (reply_event self event (data response))).2)
        then 1 else 0)
     + (if p (WriteBody (dumps (data response))) then 1 else 0))%nat.
Proof.
  intros Hlog. rewrite after_model_eq. cbn zeta.
  pose proof (count_metrics_side_effect p self (metrics response) s Hlog)
    as Hm.
  assert (count p (effects (metrics_side_effect self (metrics response) s))
          ≤ if p (MetricsUpdate (metrics response) (handler_event_type self))
            then 1 else 0)%nat as Hm'.
  { rewrite Hm. destruct (is_None _), (validate_metrics _), (p _); simpl; lia. }
  clear Hm.
  destruct (is_None (data response)); cbn [effects]; [lia|].
  destruct (decide (handler_reply_url self ≠ Some ""));
    [destruct (outcome _)|]; cbn [effects];
    rewrite ?count_app;
    change (?x :: ?l) with ([x] ++ l); rewrite ?count_app;
    rewrite ?(count_delivery_effects p _ _ Hlog);
    unfold count in *; cbn [List.filter app length]; rewrite ?Hlog;
    repeat match goal with |- context [if ?b then _ else _] =>
             destruct b end; cbn [length] in *; lia.
Qed.

Lemma written_app tr1 tr2 : written (tr1 ++ tr2) = written tr1 ++ written tr2.
Proof. apply omap_app. Qed.

Lemma written_metrics_side_effect self m (s : R) :
  written (effects (metrics_side_effect self m s)) = [].
Proof.
  apply written_nil. intros chunk Hin.
  by destruct (metrics_side_effect_quiet _ _ _ _ Hin) as [[? ?]|?].
Qed.

Lemma written_delivery_effects event url :
  written (delivery_effects event url) = [].
Proof.
  apply written_nil. intros chunk Hin.
  by destruct (elem_of_delivery_effects _ _ _ Hin) as [?|[[? ?]|?]].
Qed.

Lemma replay_updates_app (s : R) tr1 tr2 :
  replay_updates s (tr1 ++ tr2) = replay_updates (replay_updates s tr1) tr2.
Proof. apply foldl_app. Qed.

Lemma replay_updates_quiet (s : R) tr :
  (∀ m t, MetricsUpdate m t ∉ tr) → replay_updates s tr = s.
Proof.
  induction tr as [|e tr IH]; intros Hquiet; [done|].
  destruct e as [level msg|n i h|m0 t0|ev u|u hs b|chunk|port w]; cbn [replay_updates foldl];
    try (apply IH; intros m t Hin; apply (Hquiet m t); by right).
  destruct (Hquiet m0 t0). by left.
Qed.

Lemma replay_metrics_side_effect self m (s : R) :
  replay_updates s (effects (metrics_side_effect self m s))
  = final (metrics_side_effect self m s).
Proof.
  rewrite metrics_side_effect_run.
  destruct (is_None m); [done|]. by destruct (validate_metrics m).
Qed.

Lemma replay_relay_and_respond self event d (s : R) :
  replay_updates s (effects (relay_and_respond self event d s)) = s.
Proof.
  apply replay_updates_quiet.
  intros m t [[? ?]|[Hd|?]]%elem_of_relay_and_respond; [done| |done].
  by apply elem_of_delivery_effects in Hd as [?|[[? ?]|?]].
Qed.

(** X1: a payload that the request handler refuses, at [validate] or at
    [extract_request], and a request that the marshaller does not read as an
    event, end the request with the exception of that step, before anything
    is logged, before the model and with the registry as it was. *)
Theorem refused_request_has_no_effect self request (s : R) body rh e :
  loads (request_body request) = inr body →
  get_request_handler (handler_protocol self) body = inr rh →
  validate rh = inl e
  ∨ (validate rh = inr () ∧ extract_request rh = inl e)
  ∨ (validate rh = inr ()
     ∧ (∃ payload, extract_request rh = inr payload)
     ∧ ∃ msg, FromRequest v1.new (request_headers request)
                (request_body request) = inl msg
              ∧ e = Raised "cloudevents.exceptions" msg) →
  post self request s = mkRun (inl e) s []
  ∧ status_of (post self request s) = status_of_exn e.
Proof.
  intros Hbody Hrh Hstage.
  assert (post self request s = mkRun (inl e) s []) as ->; [|done].
  apply post_stops_with_prepare. rewrite prepare_eq, Hbody, Hrh.
  destruct Hstage as [->|[[-> ->]|(-> & [[[y_pred y_true] t] ->] & msg & -> & ->)]];
    reflexivity.
Qed.

(** X2: a handler whose protocol is not [common_http] serves nothing: a body
    that parses ends in the unknown-protocol exception, answered with 500, a
    body that does not parse ends as it does on any handler, and in both
    cases nothing is logged, validated, sent or written. *)
Theorem unregistered_protocol_serves_nothing self request (s : R) :
  handler_protocol self ≠ common_http →
  let r := post self request s in
  effects r = []
  ∧ final r = s
  ∧ match loads (request_body request) with
    | inl (JSONDecodeError msg) =>
        outcome r
        = inl (HTTPError 400 ("Unrecognized request format: " +:+ msg))
    | inl e => outcome r = inl (JsonError e)
    | inr _ =>
        outcome r
        = inl (Exception
                 ("Unknown protocol " +:+ str_protocol (handler_protocol self)))
        ∧ status_of r = 500
    end.
Proof.
  intros Hp r.
  assert (∃ e, prepare (handler_protocol self) request s = mkRun (inl e) s []
               ∧ match loads (request_body request) with
                 | inl (JSONDecodeError msg) =>
                     e = HTTPError 400 ("Unrecognized request format: " +:+ msg)
                 | inl err => e = JsonError err
                 | inr _ =>
                     e = Exception ("Unknown protocol "
                                    +:+ str_protocol (handler_protocol self))
                 end) as (e & Hprepare & He).
  { rewrite prepare_eq. unfold get_request_handler.
    destruct (loads _) as [[msg|msg]|body]; eauto.
    destruct (decide (handler_protocol self = common_http)); [done|eauto]. }
  subst r. rewrite (post_stops_with_prepare _ _ _ _ _ _ Hprepare).
  unfold status_of. cbn [outcome final effects]. repeat split.
  destruct (loads _) as [[msg|msg]|body]; subst e; done.
Qed.

(** X3: the registry a request leaves is the registry it found with the
    calls of [update] it made applied; it makes at most one, on metrics that
    are present and validate, under the event type of the handler. *)
Theorem registry_follows_updates self request (s : R) :
  let r := post self request s in
  final r = replay_updates s (effects r)
  ∧ (final r = s ∧ (∀ m t, MetricsUpdate m t ∉ effects r)
     ∨ ∃ m, is_None m = false
            ∧ validate_metrics m = true
            ∧ final r = update s m (handler_event_type self)
            ∧ count is_MetricsUpdate (effects r) = 1%nat
            ∧ MetricsUpdate m (handler_event_type self) ∈ effects r).
Proof.
  intros r. subst r.
  destruct (post_runs self request s)
    as [e pre Hpre|event model inputs headers e _ _
       |event model inputs headers response _ _ _ _]; cbn [outcome final effects].
  - destruct Hpre; (split; [done|]); left; (split; [done|]); intros m t Hin.
    + by apply elem_of_nil in Hin.
    + by apply list_elem_of_singleton in Hin.
  - split; [done|]. left. split; [done|]. intros m t.
    rewrite !elem_of_cons, elem_of_nil. by intros [?|[?|[]]].
  - rewrite after_model_run. cbn zeta. cbn [outcome final effects].
    rewrite relay_and_respond_final.
    set (ms := metrics_side_effect self (metrics response) s).
    set (t := relay_and_respond self event (data response) (final ms)).
    assert (∀ m ty, MetricsUpdate m ty ∉ effects t) as Hquiet.
    { intros m ty [[? ?]|[Hd|?]]%elem_of_relay_and_respond; [done| |done].
      by apply elem_of_delivery_effects in Hd as [?|[[? ?]|?]]. }
    split.
    { rewrite !replay_updates_app. cbn [replay_updates foldl].
      fold (replay_updates s (effects ms)). subst ms.
      rewrite replay_metrics_side_effect.
      symmetry. apply replay_updates_quiet. exact Hquiet. }
    assert (count is_MetricsUpdate (effects t) = 0%nat) as Hzero.
    { unfold count. assert (List.filter is_MetricsUpdate (effects t) = []) as ->;
        [|done].
      induction (effects t) as [|x l IH]; [done|]. cbn [List.filter].
      destruct x as [level msg|n i h|m0 t0|ev u|u hs b|chunk|port w]; cbn [is_MetricsUpdate];
        try (apply IH; intros m ty Hin; apply (Hquiet m ty); by right).
      destruct (Hquiet m0 t0). by left. }
    clearbody t. revert Hquiet Hzero. generalize (effects t). clear t.
    subst ms. rewrite metrics_side_effect_run.
    destruct (is_None (metrics response)) eqn:Hnone;
      [|destruct (validate_metrics (metrics response)) eqn:Hvalid];
      cbn [final effects app]; intros tl Hquiet Hzero.
    + left. split; [done|]. intros m ty. rewrite !elem_of_cons.
      intros [?|[?|Hin]]; [done..|]. by apply (Hquiet m ty).
    + right. exists (metrics response). repeat split; try done.
      * change (?a :: ?b :: ?c :: ?l) with ([a; b; c] ++ l).
        rewrite count_app, Hzero. reflexivity.
      * in_list.
    + left. split; [done|]. intros m ty. rewrite !elem_of_cons.
      intros [?|[?|[?|Hin]]]; [done..|]. by apply (Hquiet m ty).
Qed.

(** What [p] counts on a request that is stopped before lines 221-246. *)
Lemma count_post p self request (s : R) :
  (∀ level msg, p (Log level msg) = false) →
  (∀ n i h, p (ProcessEvent n i h) = false)
  ∨ ((∀ m t, p (MetricsUpdate m t) = false)
     ∧ (∀ ev u, p (SendCloudEvent ev u) = false)
     ∧ (∀ u hs b, p (RequestsPost u hs b) = false)
     ∧ (∀ chunk, p (WriteBody chunk) = false)) →
  (∀ m t ev u hs b chunk,
     (if p (MetricsUpdate m t) then 1 else 0)
     + (if p (SendCloudEvent ev u) then 1 else 0)
     + (if p (RequestsPost u hs b) then 1 else 0)
     + (if p (WriteBody chunk) then 1 else 0) ≤ 1)%nat →
  (count p (effects (post self request s)) ≤ 1)%nat.
Proof.
  intros Hlog Hkind Hone.
  destruct (post_runs self request s)
    as [e pre Hpre|event model inputs headers e _ _
       |event model inputs headers response _ _ _ _]; cbn [effects].
  - destruct Hpre; unfold count; cbn [List.filter length]; rewrite ?Hlog;
      cbn [length]; lia.
  - unfold count. cbn [List.filter]. rewrite Hlog.
    destruct (p (ProcessEvent _ _ _)); cbn [length]; lia.
  - rewrite count_app.
    pose proof (count_after_model p self event response s Hlog) as Hafter.
    specialize (Hone (metrics response) (handler_event_type self)
                  (reply_event self event (data response))
                  (handler_reply_url self)
                  (ToRequest (reply_event self event (data response))).1
                  (ToRequest (reply_event self event (data response))).2
                  (dumps (data response))).
    unfold count at 1. cbn [List.filter]. rewrite Hlog.
    destruct Hkind as [Hcall|(Hm & Hs & Hp & Hw)].
    + rewrite Hcall. cbn [length]. lia.
    + rewrite Hm, Hs, Hp, Hw in Hafter.
      destruct (p (ProcessEvent _ _ _)); cbn [length]; lia.
Qed.

(** X4: a request calls the model at most once, updates the metrics at most
    once, enters the relay at most once, posts at most once and writes at most
    once: nothing in the pipeline is tried again. *)
Theorem nothing_happens_twice self request (s : R) :
  let tr := effects (post self request s) in
  (count is_ProcessEvent tr ≤ 1
   ∧ count is_MetricsUpdate tr ≤ 1
   ∧ count is_SendCloudEvent tr ≤ 1
   ∧ count is_RequestsPost tr ≤ 1
   ∧ count is_WriteBody tr ≤ 1)%nat.
Proof.
  cbn zeta. repeat split; apply count_post; try done;
    first [ by right | by left ].
Qed.

(** X5: a request that returns was answered by the model, and its body is
    the JSON text of the data of that answer, or empty when the answer has no
    data; a request that raises has written nothing. *)
Theorem response_body_is_the_answer self request (s : R) :
  let r := post self request s in
  match outcome r with
  | inl e => written (effects r) = []
  | inr _ =>
      ∃ model inputs headers response,
        handler_model self = Some model
        ∧ process_event model inputs headers = inr (Some response)
        ∧ ProcessEvent (name model) inputs headers ∈ effects r
        ∧ written (effects r)
          = if is_None (data response) then [] else [dumps (data response)]
  end.
Proof.
  cbn zeta.
  destruct (post_runs self request s)
    as [e pre Hpre|event model inputs headers e _ _
       |event model inputs headers response _ _ Hmodel Hanswer];
    cbn [outcome effects].
  - by destruct Hpre.
  - done.
  - rewrite after_model_eq. cbn zeta.
    assert (∀ tl, written
                    ([Log DEBUG (dumps (v1.Properties event));
                      ProcessEvent (name model) inputs headers]
                     ++ effects (metrics_side_effect self (metrics response) s)
                     ++ tl) = written tl) as Hwritten.
    { intros tl. rewrite !written_app, written_metrics_side_effect.
      reflexivity. }
    destruct (is_None (data response)) eqn:Hdata; cbn [outcome effects].
    { exists model, inputs, headers, response. rewrite Hdata.
      repeat split; [done..|in_list|].
      rewrite <- (app_nil_r (effects _)). by rewrite Hwritten. }
    destruct (decide (handler_reply_url self ≠ Some ""));
      [destruct (outcome (sendCloudEvent _ _ _))|]; cbn [outcome effects];
      rewrite Hwritten.
    + change (?x :: ?l) with ([x] ++ l).
      by rewrite written_app, written_delivery_effects.
    + exists model, inputs, headers, response. rewrite Hdata.
      repeat split; [done..|in_list|].
      change (?x :: ?l ++ ?w) with ([x] ++ l ++ w).
      by rewrite !written_app, written_delivery_effects.
    + exists model, inputs, headers, response. rewrite Hdata.
      repeat split; try done. in_list.
Qed.

(** What [prepare] went through when it returns. *)
Lemma prepare_returns protocol request (s s' : R) event inputs headers tr :
  prepare protocol request s = mkRun (inr (event, inputs, headers)) s' tr →
  ∃ body rh y_pred y_true task_type,
    loads (request_body request) = inr body
    ∧ get_request_handler protocol body = inr rh
    ∧ validate rh = inr ()
    ∧ extract_request rh = inr (y_pred, y_true, task_type)
    ∧ FromRequest v1.new (request_headers request) (request_body request)
      = inr event
    ∧ convert_inputs y_true y_pred = inr inputs
    ∧ headers = context_of request task_type
    ∧ s' = s
    ∧ tr = [Log DEBUG (dumps (v1.Properties event))].
Proof.
  rewrite prepare_eq.
  destruct (loads _) as [[msg|msg]|body] eqn:Hbody; [done..|].
  destruct (get_request_handler _ _) as [e|rh] eqn:Hrh; [done|].
  destruct (validate rh) as [e|[]] eqn:Hvalid; [done|].
  destruct (extract_request rh) as [e|[[y_pred y_true] task]] eqn:Hextract;
    [done|].
  destruct (FromRequest _ _ _) as [e|event'] eqn:Hevent; [done|]. cbn zeta.
  destruct (convert_inputs _ _) as [e|inputs'] eqn:Hconvert; [done|].
  intros [= <- <- <- <- <-]. exists body, rh, y_pred, y_true, task.
  repeat split; assumption.
Qed.

(** A request that called a model had [prepare] return what it was called
    with. *)
Lemma model_called self request (s : R) n inputs headers :
  ProcessEvent n inputs headers ∈ effects (post self request s) →
  ∃ event model,
    handler_model self = Some model
    ∧ n = name model
    ∧ prepare (handler_protocol self) request s
      = mkRun (inr (event, inputs, headers)) s
          [Log DEBUG (dumps (v1.Properties event))].
Proof.
  intros Hin.
  destruct (prepare_run (handler_protocol self) request s)
    as [(e & pre & Hpre & Hrun)|(event & inputs' & headers' & _ & Hrun)].
  { rewrite (post_stops_with_prepare _ _ _ _ _ _ Hrun) in Hin.
    cbn [effects] in Hin. destruct Hpre; [by apply elem_of_nil in Hin|].
    by apply list_elem_of_singleton in Hin. }
  rewrite (post_after_prepare _ _ _ _ _ _ _ Hrun) in Hin.
  destruct (handler_model self) as [model|];
    [|by apply list_elem_of_singleton in Hin].
  exists event, model. cbn zeta in Hin.
  assert (ProcessEvent n inputs headers
          = ProcessEvent (name model) inputs' headers') as [= -> -> ->]; [|done].
  destruct (process_event model inputs' headers') as [e|[response|]];
    cbn [effects app] in Hin; rewrite !elem_of_cons in Hin.
  - by destruct Hin as [?|[?|?%elem_of_nil]].
  - destruct Hin as [?|[?|Hin]]; [done..|].
    by apply after_model_effects in Hin.
  - by destruct Hin as [?|[?|?%elem_of_nil]].
Qed.

(** X6: the metrics of an answer are recorded before the relay is entered,
    and stay recorded when the relay then raises: the request ends in the
    exception of the relay with the registry updated. *)
Theorem metrics_outlive_failed_relay self request (s s0 : R)
    revent url e m t :
  SendCloudEvent revent url ∈ effects (post self request s) →
  outcome (sendCloudEvent revent url s0) = inl e →
  MetricsUpdate m t ∈ effects (post self request s) →
  let r := post self request s in
  outcome r = inl e
  ∧ final r = update s m t
  ∧ ∃ before between after,
      effects r
      = before ++ MetricsUpdate m t :: between
        ++ SendCloudEvent revent url :: after.
Proof.
  intros Hsent Hfails Hupdated r. subst r.
  destruct (relay_entered _ _ _ _ _ Hsent)
    as (event & model & inputs & headers & response
        & _ & _ & _ & Hdata & Hurl & -> & -> & Hpost).
  revert Hupdated. rewrite Hpost. cbn zeta. rewrite after_model_eq. cbn zeta.
  rewrite Hdata. destruct (decide _) as [_|]; [|done].
  rewrite sendCloudEvent_run in Hfails |- *. cbn [outcome] in Hfails |- *.
  rewrite Hfails. cbn [outcome final effects].
  rewrite metrics_side_effect_run.
  destruct (is_None (metrics response));
    [|destruct (validate_metrics (metrics response))];
    cbn [final effects app]; rewrite ?elem_of_cons; intros Hin.
  - destruct Hin as [?|[?|[?|Hd]]]; [done..|].
    by apply elem_of_delivery_effects in Hd as [?|[[? ?]|?]].
  - destruct Hin as [?|[?|[[= -> ->]|[?|Hd]]]]; try done.
    + repeat split.
      exists [Log DEBUG (dumps (v1.Properties event));
              ProcessEvent (name model) inputs headers],
        [Log DEBUG (dumps (v1.Properties
                             (reply_event self event (data response))))].
      eexists. unfold delivery_effects. cbn [app]. reflexivity.
    + by apply elem_of_delivery_effects in Hd as [?|[[? ?]|?]].
  - destruct Hin as [?|[?|[?|[?|Hd]]]]; [done..|].
    by apply elem_of_delivery_effects in Hd as [?|[[? ?]|?]].
Qed.

(** X7: with the empty text for reply URL, a request whose model answers
    with data returns that data as its body, last of all, without entering
    the relay. *)
Theorem empty_reply_url_answers_directly self request (s : R)
    model inputs headers response :
  handler_model self = Some model →
  ProcessEvent (name model) inputs headers ∈ effects (post self request s) →
  process_event model inputs headers = inr (Some response) →
  is_None (data response) = false →
  handler_reply_url self = Some "" →
  let r := post self request s in
  outcome r = inr ()
  ∧ status_of r = 200
  ∧ written (effects r) = [dumps (data response)]
  ∧ last (effects r) = Some (WriteBody (dumps (data response)))
  ∧ count is_SendCloudEvent (effects r) = 0%nat
  ∧ count is_RequestsPost (effects r) = 0%nat
  ∧ final r = final (metrics_side_effect self (metrics response) s).
Proof.
  intros Hmodel Hin Hresponse Hdata Hurl r. subst r.
  destruct (model_answered _ _ _ _ _ _ _ Hmodel Hin Hresponse)
    as (event & _ & ->).
  cbn zeta. rewrite after_model_eq. cbn zeta. rewrite Hdata, Hurl.
  destruct (decide _) as [Hne|_]; [done|].
  unfold status_of. cbn [outcome final effects].
  change (?a :: ?b :: ?l) with ([a; b] ++ l).
  rewrite !written_app, written_metrics_side_effect, !count_app, !last_app.
  rewrite !count_metrics_side_effect by done.
  rewrite !andb_false_r. by repeat split.
Qed.

(** X8: when the relay is entered and returns, the request returns; the POST
    carries the marshalled reply event, the body is the JSON text of the data
    of that same event, and the write is the last thing the request does,
    after the POST. *)
Theorem delivered_relay_is_followed_by_the_body self request (s s0 : R)
    revent url :
  SendCloudEvent revent url ∈ effects (post self request s) →
  outcome (sendCloudEvent revent url s0) = inr () →
  let r := post self request s in
  outcome r = inr ()
  ∧ posts (effects r) = [(url, (ToRequest revent).1, (ToRequest revent).2)]
  ∧ written (effects r) = [dumps (v1.Data revent)]
  ∧ ∃ before,
      effects r
      = before ++ delivery_effects revent url
        ++ [WriteBody (dumps (v1.Data revent))].
Proof.
  intros Hsent Hok r. subst r.
  destruct (relay_entered _ _ _ _ _ Hsent)
    as (event & model & inputs & headers & response
        & _ & _ & _ & Hdata & Hurl & -> & -> & ->).
  cbn zeta. rewrite after_model_eq. cbn zeta.
  rewrite Hdata. destruct (decide _) as [_|]; [|done].
  rewrite sendCloudEvent_run in Hok |- *. cbn [outcome] in Hok |- *.
  rewrite Hok. cbn [outcome final effects].
  set (revent := reply_event self event (data response)).
  assert (v1.Data revent = data response) as -> by reflexivity.
  set (front := [Log DEBUG (dumps (v1.Properties event));
                 ProcessEvent (name model) inputs headers]
                ++ effects (metrics_side_effect self (metrics response) s)
                ++ [Log DEBUG (dumps (v1.Properties revent))]).
  assert (∀ tl, [Log DEBUG (dumps (v1.Properties event));
                 ProcessEvent (name model) inputs headers]
                ++ effects (metrics_side_effect self (metrics response) s)
                ++ Log DEBUG (dumps (v1.Properties revent)) :: tl
                = front ++ tl) as ->.
  { intros tl. subst front. by rewrite <- !app_assoc. }
  assert (posts front = [] ∧ written front = []) as [Hposts Hwritten].
  { subst front. unfold posts. rewrite !omap_app, !written_app.
    rewrite written_metrics_side_effect. split; [|done].
    rewrite metrics_side_effect_run.
    destruct (is_None (metrics response)); [done|].
    by destruct (validate_metrics (metrics response)). }
  repeat split; [| |by exists front].
  - unfold posts in *. rewrite !omap_app, Hposts.
    fold (posts (delivery_effects revent (handler_reply_url self))).
    by rewrite posts_delivery_effects.
  - by rewrite !written_app, Hwritten, written_delivery_effects.
Qed.

(** X9: a handler without a model, as [create_application] builds it before
    any model is registered, answers no request: a request that passes every
    check ends in the [AttributeError] of the call on [None], and no request
    writes a body or changes the registry. *)
Theorem no_model_no_answer self request (s : R) :
  handler_model self = None →
  let r := post self request s in
  final r = s
  ∧ written (effects r) = []
  ∧ count is_ProcessEvent (effects r) = 0%nat
  ∧ ((∃ e tr, prepare (handler_protocol self) request s = mkRun (inl e) s tr
              ∧ r = mkRun (inl e) s tr)
     ∨ (∃ event inputs headers,
          prepare (handler_protocol self) request s
            = mkRun (inr (event, inputs, headers)) s
                [Log DEBUG (dumps (v1.Properties event))]
          ∧ r = mkRun
                  (inl (AttributeError
                          "'NoneType' object has no attribute 'process_event'"))
                  s [Log DEBUG (dumps (v1.Properties event))]
          ∧ status_of r = 500)).
Proof.
  intros Hmodel r. subst r.
  destruct (prepare_run (handler_protocol self) request s)
    as [(e & pre & Hpre & Hrun)|(event & inputs & headers & _ & Hrun)].
  - rewrite (post_stops_with_prepare _ _ _ _ _ _ Hrun). cbn [final effects].
    repeat split; [by destruct Hpre..|]. left. by exists e, pre.
  - rewrite (post_after_prepare _ _ _ _ _ _ _ Hrun), Hmodel.
    cbn [final effects]. repeat split. right. by exists event, inputs, headers.
Qed.

(** X10: when the model raises, the request ends in the exception of the
    model and is answered with the status of that exception, the one the
    model chose when it raised a tornado [HTTPError]; when the model returns
    [None], the request ends in an [AttributeError].  Either way the model
    was called once, nothing is written and the registry is as it was. *)
Theorem model_failure_is_the_answer self request (s : R)
    model inputs headers :
  handler_model self = Some model →
  ProcessEvent (name model) inputs headers ∈ effects (post self request s) →
  (∀ response, process_event model inputs headers ≠ inr (Some response)) →
  let r := post self request s in
  let e :=
    match process_event model inputs headers with
    | inl e => e
    | inr _ => AttributeError "'NoneType' object has no attribute 'metrics'"
    end in
  outcome r = inl e
  ∧ status_of r = status_of_exn e
  ∧ final r = s
  ∧ written (effects r) = []
  ∧ ∃ event,
      effects r = [Log DEBUG (dumps (v1.Properties event));
                   ProcessEvent (name model) inputs headers].
Proof.
  intros Hmodel Hin Hfails r e. subst r e.
  destruct (model_called _ _ _ _ _ _ Hin) as (event & model' & Hmodel' & _ & Hrun).
  rewrite Hmodel in Hmodel'. injection Hmodel' as <-.
  rewrite (post_after_prepare _ _ _ _ _ _ _ Hrun), Hmodel. cbn zeta.
  unfold status_of.
  destruct (process_event model inputs headers) as [e|[response|]];
    [|by destruct (Hfails response)|]; cbn [outcome final effects];
    repeat split; by exists event.
Qed.

Lemma lookup_stored_headers (k : string) (pairs : list (string * string)) :
  foldl (λ (headers : gmap string pyval) '(key, val),
           <[key := PStr val]> headers) ∅ pairs !! k
  = PStr <$> last_value k pairs.
Proof.
  unfold last_value.
  induction pairs as [|[key val] pairs IH] using rev_ind; [done|].
  rewrite foldl_app, omap_app, last_app. simpl.
  destruct (decide (key = k)) as [->|Hne]; simpl.
  - by rewrite lookup_insert_eq.
  - by rewrite lookup_insert_ne.
Qed.

(** X11: the headers the model receives hold, under every name other than
    the key [task_type], the last value that [get_all()] yields under that
    name, and nothing under a name it does not yield; under the key
    [task_type] they hold the task type that [extract_request] returned.  A
    header that the client sent as [task_type] comes from tornado under the
    name [Task_type]: it is another key, and the model receives both. *)
Theorem model_receives_the_extracted_task_type self request (s : R)
    n inputs headers :
  ProcessEvent n inputs headers ∈ effects (post self request s) →
  ∃ body rh y_pred y_true task_type,
    loads (request_body request) = inr body
    ∧ get_request_handler (handler_protocol self) body = inr rh
    ∧ extract_request rh = inr (y_pred, y_true, task_type)
    ∧ headers !! "task_type" = Some task_type
    ∧ ∀ k, k ≠ "task_type" →
           headers !! k = PStr <$> last_value k (request_headers request).
Proof.
  intros Hin.
  destruct (model_called _ _ _ _ _ _ Hin) as (event & model & _ & _ & Hrun).
  destruct (prepare_returns _ _ _ _ _ _ _ _ Hrun)
    as (body & rh & y_pred & y_true & task & Hbody & Hrh & _ & Hextract
        & _ & _ & -> & _).
  exists body, rh, y_pred, y_true, task. unfold context_of.
  repeat split; [done..| |].
  - by rewrite lookup_insert_eq.
  - intros k Hk. rewrite lookup_insert_ne by done.
    apply lookup_stored_headers.
Qed.

(** X12: the inputs the model receives are two arrays and nothing else: under
    [y_true] what [np.array] returned for the labels and under [y_pred] what
    it returned for the predictions that [extract_request] gave, each under
    its own name; the model is not called unless both conversions
    returned. *)
Theorem model_receives_the_extracted_sequences self request (s : R)
    n inputs headers :
  ProcessEvent n inputs headers ∈ effects (post self request s) →
  ∃ body rh y_pred y_true task_type a_pred a_true,
    loads (request_body request) = inr body
    ∧ get_request_handler (handler_protocol self) body = inr rh
    ∧ extract_request rh = inr (y_pred, y_true, task_type)
    ∧ np.array y_pred = inr a_pred
    ∧ np.array y_true = inr a_true
    ∧ inputs !! "y_pred" = Some a_pred
    ∧ inputs !! "y_true" = Some a_true
    ∧ ∀ k, k ≠ "y_pred" → k ≠ "y_true" → inputs !! k = None.
Proof.
  intros Hin.
  destruct (model_called _ _ _ _ _ _ Hin) as (event & model & _ & _ & Hrun).
  destruct (prepare_returns _ _ _ _ _ _ _ _ Hrun)
    as (body & rh & y_pred & y_true & task & Hbody & Hrh & _ & Hextract
        & _ & Hconvert & _).
  revert Hconvert. unfold convert_inputs.
  destruct (np.array y_true) as [e|a_true] eqn:Htrue; [done|].
  destruct (np.array y_pred) as [e|a_pred] eqn:Hpred; [done|].
  intros [= <-]. exists body, rh, y_pred, y_true, task, a_pred, a_true.
  split_and!;
    first [ done
          | by rewrite lookup_insert_eq
          | by rewrite lookup_insert_ne, lookup_insert_eq
          | by intros k Hp Ht; rewrite !lookup_insert_ne, lookup_empty ].
Qed.

(** X13: a conversion that fails ends the request in the exception of line
    216, answered with 500, before the model is called; its message carries
    the message of numpy and the inputs converted so far, none when the
    labels failed and the labels alone when the predictions failed. *)
Theorem failed_conversion_stops_before_the_model self request (s : R)
    body rh y_pred y_true task_type event e :
  loads (request_body request) = inr body →
  get_request_handler (handler_protocol self) body = inr rh →
  validate rh = inr () →
  extract_request rh = inr (y_pred, y_true, task_type) →
  FromRequest v1.new (request_headers request) (request_body request)
    = inr event →
  np.array y_true = inl e
  ∨ ((∃ a, np.array y_true = inr a) ∧ np.array y_pred = inl e) →
  let r := post self request s in
  let converted : gmap string np.ndarray :=
    match np.array y_true with
    | inl _ => ∅
    | inr a => {[ "y_true" := a ]}
    end in
  outcome r
  = inl (Exception ("Failed to initialize NumPy array from inputs: " +:+ e
                    +:+ ", " +:+ str_inputs converted))
  ∧ status_of r = 500
  ∧ effects r = [Log DEBUG (dumps (v1.Properties event))]
  ∧ final r = s.
Proof.
  intros Hbody Hrh Hvalid Hextract Hevent Hfails r converted.
  assert (convert_inputs y_true y_pred
          = inl (Exception
                   ("Failed to initialize NumPy array from inputs: " +:+ e
                    +:+ ", " +:+ str_inputs converted))) as Hconvert.
  { subst converted. unfold convert_inputs.
    destruct Hfails as [->|[[a ->] ->]]; [done|].
    by rewrite insert_empty. }
  subst r. erewrite post_stops_with_prepare; [done|].
  rewrite prepare_eq, Hbody, Hrh, Hvalid, Hextract, Hevent. cbn zeta.
  by rewrite Hconvert.
Qed.

(** X14: the reply event has the content type [application/json], the source
    and the type the handler was configured with, the data of the answer and
    neither subject nor schema, whatever the event that came in had; it goes
    to the reply URL of the handler. *)
Theorem reply_event_is_the_handlers self request (s : R) revent url :
  SendCloudEvent revent url ∈ effects (post self request s) →
  url = handler_reply_url self
  ∧ v1.ce__specversion revent = "1.0"
  ∧ v1.ce__datacontenttype revent = Some "application/json"
  ∧ v1.ce__source revent = Some (handler_event_source self)
  ∧ v1.ce__type revent = Some (handler_event_type self)
  ∧ v1.ce__subject revent = None
  ∧ v1.ce__dataschema revent = None
  ∧ ∃ model inputs headers response,
      handler_model self = Some model
      ∧ process_event model inputs headers = inr (Some response)
      ∧ is_None (data response) = false
      ∧ v1.Data revent = data response.
Proof.
  intros Hin.
  destruct (relay_entered _ _ _ _ _ Hin)
    as (event & model & inputs & headers & response
        & _ & Hmodel & Hanswer & Hdata & _ & -> & -> & _).
  repeat split. by exists model, inputs, headers, response.
Qed.

End Coverage.

(** ** The rest of the file: the server shell *)

Section Shell.

(** X15: registering a second model replaces the first, and a registration
    that fails keeps the model that was registered: after a model with a name,
    [register_model] leaves the later model when it has a name and the
    earlier one when it has none, and the rest of the server as it was. *)
Theorem later_registration_wins (first later : CEModel) (self : CEServer) :
  name first ≠ "" →
  let r := (register_model first ;; register_model later) self in
  registered_model (final r)
  = Some (if decide (name later = "") then first else later)
  ∧ ((∃ e, outcome r = inl e) ↔ name later = "")
  ∧ effects r
    = Log INFO ("Registering model:" +:+ name first)
      :: (if decide (name later = "") then []
          else [Log INFO ("Registering model:" +:+ name later)])
  ∧ http_port (final r) = http_port self
  ∧ protocol (final r) = protocol self
  ∧ reply_url (final r) = reply_url self
  ∧ _http_server (final r) = _http_server self
  ∧ event_type (final r) = event_type self
  ∧ event_source (final r) = event_source self.
Proof.
  intros Hfirst r. subst r. unfold_monad. unfold bind.
  rewrite !register_model_run.
  destruct (decide (name first = "")); [done|].
  cbn [outcome final effects]. rewrite ?register_model_run.
  destruct (decide (name later = "")) as [Hlater|Hlater];
    cbn [outcome final effects registered_model http_port protocol reply_url
         _http_server event_type event_source app];
    repeat split; try done.
  - by eexists.
  - by intros [? ?].
Qed.


End Shell.

(** ** Examples: the further statements on the requests of the fixture *)

Section MoreExamples.
Import Fixture.

(** X2 on a handler configured with a protocol that has no request handler. *)
Lemma unregistered_protocol_example :
  let self := mkEventHandler (unregistered "Protocol.grpc") (Some counting)
                (Some "") "monitor.reply" "monitor" in
  let r := post self (binary_request "e-1" body_equal) registry0 in
  effects r = []
  ∧ final r = registry0
  ∧ outcome r = inl (Exception "Unknown protocol Protocol.grpc")
  ∧ status_of r = 500.
Proof.
  pose proof (unregistered_protocol_serves_nothing
                (R := PrometheusMetrics.BdilabMetrics)
                (mkEventHandler (unregistered "Protocol.grpc") (Some counting)
                   (Some "") "monitor.reply" "monitor")
                (binary_request "e-1" body_equal) registry0) as Hthm.
  cbn zeta in *. destruct Hthm as (Heffects & Hfinal & Hout); [done|].
  split_and!; [exact Heffects|exact Hfinal|vm_compute; reflexivity..].
Defined.

(** X6 on a model that counts its calls and a destination that refuses the
    connection: the request fails and the call is counted. *)
Lemma counted_although_undelivered_example :
  let self := handler counting (Some sink_unreachable) in
  let revent := reply_event self (inbound "e-1" [1; 0; 1] [1; 1; 1])
                  (sizes 3 3) in
  let m := PList [metric "events_total" "counter" (PInt 1)] in
  let r := post self (binary_request "e-1" body_equal) registry0 in
  outcome r
  = inl (RequestsError
           (mkRequestException "ConnectionError" "Connection refused"))
  ∧ final r = update registry0 m "monitor.reply"
  ∧ ∃ before between after,
      effects r
      = before ++ MetricsUpdate m "monitor.reply" :: between
        ++ SendCloudEvent revent (Some sink_unreachable) :: after.
Proof.
  apply (metrics_outlive_failed_relay
           (R := PrometheusMetrics.BdilabMetrics)
           (handler counting (Some sink_unreachable))
           (binary_request "e-1" body_equal) registry0 registry0).
  - vm_compute. in_list.
  - reflexivity.
  - vm_compute. in_list.
Defined.

(** X7 on a handler whose reply URL is the empty text. *)
Lemma empty_reply_url_example :
  let self := handler counting (Some "") in
  let r := post self (binary_request "e-1" body_equal) registry0 in
  outcome r = inr ()
  ∧ status_of r = 200
  ∧ written (effects r) = [dumps (sizes 3 3)]
  ∧ last (effects r) = Some (WriteBody (dumps (sizes 3 3)))
  ∧ count is_SendCloudEvent (effects r) = 0%nat
  ∧ count is_RequestsPost (effects r) = 0%nat
  ∧ final r
    = final (metrics_side_effect self
               (PList [metric "events_total" "counter" (PInt 1)]) registry0).
Proof.
  apply (empty_reply_url_answers_directly
           (R := PrometheusMetrics.BdilabMetrics)
           (handler counting (Some "")) (binary_request "e-1" body_equal)
           registry0 counting (inputs_of [1; 0; 1] [1; 1; 1])
           (context_of (binary_request "e-1" body_equal)
              (PStr "classification"))
           {| data := sizes 3 3;
              metrics := PList [metric "events_total" "counter" (PInt 1)] |}).
  - reflexivity.
  - vm_compute. in_list.
  - reflexivity.
  - reflexivity.
  - reflexivity.
Defined.

(** X8 on a destination that accepts the event. *)
Lemma delivered_relay_example :
  let self := handler counting (Some sink_ok) in
  let revent := reply_event self (inbound "e-1" [1; 0; 1] [1; 1; 1])
                  (sizes 3 3) in
  let r := post self (binary_request "e-1" body_equal) registry0 in
  outcome r = inr ()
  ∧ posts (effects r)
    = [(Some sink_ok, (ToRequest revent).1, (ToRequest revent).2)]
  ∧ written (effects r) = [dumps (v1.Data revent)]
  ∧ ∃ before,
      effects r
      = before ++ delivery_effects revent (Some sink_ok)
        ++ [WriteBody (dumps (v1.Data revent))].
Proof.
  apply (delivered_relay_is_followed_by_the_body
           (R := PrometheusMetrics.BdilabMetrics)
           (handler counting (Some sink_ok)) (binary_request "e-1" body_equal)
           registry0 registry0).
  - vm_compute. in_list.
  - reflexivity.
Defined.

(** X9 on the application of a server on which no model was registered. *)
Lemma application_without_model_example :
  let self := route_events (create_application (server (Some sink_ok))) in
  let r := post self (binary_request "e-1" body_equal) registry0 in
  handler_model self = None
  ∧ final r = registry0
  ∧ written (effects r) = []
  ∧ count is_ProcessEvent (effects r) = 0%nat
  ∧ outcome r
    = inl (AttributeError "'NoneType' object has no attribute 'process_event'")
  ∧ status_of r = 500.
Proof.
  pose proof (no_model_no_answer
                (R := PrometheusMetrics.BdilabMetrics)
                (route_events (create_application (server (Some sink_ok))))
                (binary_request "e-1" body_equal) registry0 eq_refl)
    as (Hfinal & Hwritten & Hcount & _).
  cbn zeta. split_and!; [reflexivity|exact Hfinal|exact Hwritten|exact Hcount|..];
    vm_compute; reflexivity.
Defined.

(** X10 on a model that raises a tornado error with a status of its own. *)
Lemma refusing_model_example :
  let self := handler Rejects.refusing (Some sink_ok) in
  let request := binary_request "e-1" body_equal in
  let e := HTTPError 422 "Unprocessable payload" in
  let r := post self request registry0 in
  outcome r = inl e
  ∧ status_of r = status_of_exn e
  ∧ final r = registry0
  ∧ written (effects r) = []
  ∧ ∃ event,
      effects r
      = [Log DEBUG (dumps (v1.Properties event));
         ProcessEvent "refusing" (inputs_of [1; 0; 1] [1; 1; 1])
           (context_of request (PStr "classification"))].
Proof.
  apply (model_failure_is_the_answer
           (R := PrometheusMetrics.BdilabMetrics)
           (handler Rejects.refusing (Some sink_ok))
           (binary_request "e-1" body_equal) registry0 Rejects.refusing
           (inputs_of [1; 0; 1] [1; 1; 1])
           (context_of (binary_request "e-1" body_equal)
              (PStr "classification"))).
  - reflexivity.
  - vm_compute. in_list.
  - intros response Heq. discriminate Heq.
Defined.

(** X11 on a request whose client sent a [task_type] header of its own,
    which tornado yields as [Task_type], and one header twice: the model
    receives the header of the client and the extracted task type side by
    side, and the later of the two values. *)
Lemma task_type_header_example :
  let request :=
    {| request_headers :=
         request_headers (binary_request "e-1" body_equal)
         ++ [("Task_type", "regression"); ("X-Trace", "1"); ("X-Trace", "2")];
       request_body := body_equal |} in
  let headers := context_of request (PStr "classification") in
  ProcessEvent "counting" (inputs_of [1; 0; 1] [1; 1; 1]) headers
  ∈ effects (post (handler counting (Some "")) request registry0)
  ∧ headers !! "task_type" = Some (PStr "classification")
  ∧ headers !! "Task_type" = Some (PStr "regression")
  ∧ headers !! "X-Trace" = Some (PStr "2")
  ∧ headers !! "Ce-Id" = Some (PStr "e-1")
  ∧ headers !! "X-Other" = None.
Proof.
  assert (ProcessEvent "counting" (inputs_of [1; 0; 1] [1; 1; 1])
            (context_of
               {| request_headers :=
                    request_headers (binary_request "e-1" body_equal)
                    ++ [("Task_type", "regression"); ("X-Trace", "1");
                        ("X-Trace", "2")];
                  request_body := body_equal |} (PStr "classification"))
          ∈ effects
              (post (handler counting (Some ""))
                 {| request_headers :=
                      request_headers (binary_request "e-1" body_equal)
                      ++ [("Task_type", "regression"); ("X-Trace", "1");
                          ("X-Trace", "2")];
                    request_body := body_equal |} registry0)) as Hcalled.
  { vm_compute. in_list. }
  destruct (model_receives_the_extracted_task_type
              (R := PrometheusMetrics.BdilabMetrics)
              (handler counting (Some "")) _ registry0 "counting"
              (inputs_of [1; 0; 1] [1; 1; 1]) _ Hcalled)
    as (body & rh & y_pred & y_true & task_type
        & Hbody & Hrh & Hextract & Htask & Hrest).
  cbn zeta. split; [exact Hcalled|].
  assert (task_type = PStr "classification") as ->.
  { vm_compute in Hbody. injection Hbody as <-.
    vm_compute in Hrh. injection Hrh as <-.
    vm_compute in Hextract. by injection Hextract as _ _ <-. }
  split; [exact Htask|].
  split_and!; (rewrite Hrest; [vm_compute; reflexivity|discriminate]).
Defined.

(** X12 on three predictions against two labels. *)
Lemma model_inputs_example :
  let request := binary_request "e-1" body_3_2 in
  let inputs := inputs_of [1; 0; 1] [1; 1] in
  ∃ body rh y_pred y_true task_type a_pred a_true,
    loads (request_body request) = inr body
    ∧ get_request_handler common_http body = inr rh
    ∧ extract_request rh = inr (y_pred, y_true, task_type)
    ∧ np.array y_pred = inr a_pred
    ∧ np.array y_true = inr a_true
    ∧ inputs !! "y_pred" = Some a_pred
    ∧ inputs !! "y_true" = Some a_true
    ∧ ∀ k, k ≠ "y_pred" → k ≠ "y_true" → inputs !! k = None.
Proof.
  apply (model_receives_the_extracted_sequences
           (R := PrometheusMetrics.BdilabMetrics)
           (handler counting (Some "")) (binary_request "e-1" body_3_2)
           registry0 "counting" (inputs_of [1; 0; 1] [1; 1])
           (context_of (binary_request "e-1" body_3_2)
              (PStr "classification"))).
  vm_compute. in_list.
Defined.

(** X14 on the reply to an event of another source and type. *)
Lemma reply_event_example :
  let self := handler counting (Some sink_ok) in
  let revent := reply_event self (inbound "e-1" [1; 0; 1] [1; 1; 1])
                  (sizes 3 3) in
  Some sink_ok = handler_reply_url self
  ∧ v1.ce__specversion revent = "1.0"
  ∧ v1.ce__datacontenttype revent = Some "application/json"
  ∧ v1.ce__source revent = Some (handler_event_source self)
  ∧ v1.ce__type revent = Some (handler_event_type self)
  ∧ v1.ce__subject revent = None
  ∧ v1.ce__dataschema revent = None
  ∧ ∃ model inputs headers response,
      handler_model self = Some model
      ∧ process_event model inputs headers = inr (Some response)
      ∧ is_None (data response) = false
      ∧ v1.Data revent = data response.
Proof.
  apply (reply_event_is_the_handlers
           (R := PrometheusMetrics.BdilabMetrics)
           (handler counting (Some sink_ok)) (binary_request "e-1" body_equal)
           registry0).
  vm_compute. in_list.
Defined.

(** X15 on a model without a name that comes after a model with one. *)
Lemma later_registration_example :
  let r := (register_model counting ;; register_model nameless)
             (server None) in
  registered_model (final r) = Some counting
  ∧ (∃ e, outcome r = inl e)
  ∧ effects r = [Log INFO "Registering model:counting"].
Proof.
  pose proof (later_registration_wins counting nameless (server None))
    as Hthm.
  cbn zeta in Hthm. destruct Hthm as (Hmodel & Hraises & Heffects & _).
  { discriminate. }
  split_and!; [exact Hmodel|by apply Hraises|exact Heffects].
Defined.


End MoreExamples.

Section RejectedExamples.
Import Fixture.
#[local] Existing Instance Rejects.json | 0.
#[local] Existing Instance Rejects.marshaller | 0.

(** X1 on a payload without its labels: the request handler refuses it with
    400. *)
Lemma refused_payload_example :
  let self := handler counting (Some sink_ok) in
  let request := binary_request "e-1" Rejects.body_no_actual in
  let e := HTTPError 400 "Invalid request: missing field" in
  post self request registry0 = mkRun (inl e) registry0 []
  ∧ status_of (post self request registry0) = status_of_exn e.
Proof.
  apply (refused_request_has_no_effect
           (R := PrometheusMetrics.BdilabMetrics)
           (handler counting (Some sink_ok))
           (binary_request "e-1" Rejects.body_no_actual) registry0
           (PDict [("predicted", PList (PInt <$> [1; 0; 1]));
                   ("taskType", PStr "classification")])
           (CommonRequestHandler
              (PDict [("predicted", PList (PInt <$> [1; 0; 1]));
                      ("taskType", PStr "classification")]))).
  - reflexivity.
  - reflexivity.
  - left. reflexivity.
Defined.

(** X13 on predictions whose rows have two lengths: the labels convert, the
    predictions do not. *)
Lemma ragged_predictions_example :
  let self := handler counting (Some sink_ok) in
  let request := binary_request "e-1" Rejects.body_ragged in
  let e :=
    "setting an array element with a sequence. The requested array has an inhomogeneous shape" in
  let r := post self request registry0 in
  let converted : gmap string np.ndarray :=
    match np.array (PList (PInt <$> [1; 1])) with
    | inl _ => ∅
    | inr a => {[ "y_true" := a ]}
    end in
  outcome r
  = inl (Exception ("Failed to initialize NumPy array from inputs: " +:+ e
                    +:+ ", " +:+ str_inputs converted))
  ∧ status_of r = 500
  ∧ (∃ event, effects r = [Log DEBUG (dumps (v1.Properties event))])
  ∧ final r = registry0.
Proof.
  pose proof (failed_conversion_stops_before_the_model
                (R := PrometheusMetrics.BdilabMetrics)
                (handler counting (Some sink_ok))
                (binary_request "e-1" Rejects.body_ragged) registry0
                (PDict [("predicted", Rejects.ragged);
                        ("actual", PList (PInt <$> [1; 1]));
                        ("taskType", PStr "classification")])
                (CommonRequestHandler
                   (PDict [("predicted", Rejects.ragged);
                           ("actual", PList (PInt <$> [1; 1]));
                           ("taskType", PStr "classification")]))
                Rejects.ragged (PList (PInt <$> [1; 1]))
                (PStr "classification")
                (v1.SetData (inbound "e-1" [1; 0; 1] [1; 1])
                   (PDict [("predicted", Rejects.ragged);
                           ("actual", PList (PInt <$> [1; 1]));
                           ("taskType", PStr "classification")]))
                "setting an array element with a sequence. The requested array has an inhomogeneous shape"
                eq_refl eq_refl eq_refl eq_refl eq_refl
                (or_intror (conj (ex_intro _ _ eq_refl) eq_refl)))
    as (Hout & Hstatus & Heffects & Hfinal).
  cbn zeta. split_and!; [exact Hout|exact Hstatus|by eexists|exact Hfinal].
Defined.

End RejectedExamples.
